(** * Lavapy: Player state synchronisation and Node request surface

    A shallow embedding of [lavapy/player.py], [lavapy/node.py] and the
    event constructors of [lavapy/events.py].

    Python objects that the code mutates live in an explicit [World]
    (a heap of [Player] objects, the one [Node] they are attached to, the
    websocket the node writes to, and the host collaborator).  Coroutines
    become computations in a state-and-exception monad [M]: an exception
    keeps the state reached when it was raised, as in Python.  [await]
    points are sequential composition: the properties stated here concern
    one call at a time. *)

From Stdlib Require Import ZArith QArith List String Ascii Bool Lia Permutation.
From Stdlib Require Import DecimalString Qround.
Import ListNotations.
Open Scope string_scope.
Open Scope Z_scope.

Set Implicit Arguments.

(* ===================================================================== *)
(** ** Python values                                                      *)
(* ===================================================================== *)

(** The values that player.py and node.py store, send and return.
    A [dict] with string keys is an association list in insertion order,
    without duplicate keys (see [dict_set]).  Floats are idealised as
    rationals; [PObj c args] is the instance obtained by calling the
    class named [c] on [args] (the classes of tracks.py are not modelled
    further). *)
#[warnings="-register-all"]
Inductive pyval : Type :=
| PNone
| PBool (b : bool)
| PInt (z : Z)
| PFloat (q : Q)
| PStr (s : string)
| PList (l : list pyval)
| PDict (d : list (string * pyval))
| PObj (cls : string) (args : list pyval).

(** Exceptions.  [AttributeError o a] is
    "[o] object has no attribute [a]". *)
Inductive exn : Type :=
| AttributeError (obj attr : string)
| NameError (name : string)
| TypeError
| KeyError (key : string)
| IndexError
| ValueError
| InvalidIdentifier
| FilterAlreadyExists
| LavalinkException
| LoadTrackError (data : pyval)
| HostError           (* raised by the discord collaborator *)
| FilterNotApplied
| WebsocketAlreadyExists
| BuildTrackError (data : pyval)
| OverflowError
| OSError
| DecodeError.        (* raised by aiohttp when a body is not JSON *)

Inductive outcome (A : Type) : Type :=
| Return (a : A)
| Raise (e : exn).
Arguments Return {A} a.
Arguments Raise {A} e.

(** Truth value of an object, as tested by [if x:]. *)
Definition truthy (v : pyval) : bool :=
  match v with
  | PNone => false
  | PBool b => b
  | PInt z => negb (z =? 0)
  | PFloat q => negb (Qeq_bool q 0)
  | PStr s => negb (String.eqb s "")
  | PList l => match l with [] => false | _ => true end
  | PDict d => match d with [] => false | _ => true end
  | PObj _ _ => true
  end.

Definition is_None (v : pyval) : bool :=
  match v with PNone => true | _ => false end.

(** [v == "literal"] *)
Definition eq_str (v : pyval) (s : string) : bool :=
  match v with PStr s' => String.eqb s' s | _ => false end.

(** [str(n)] for an int. *)
Definition str_of_int (z : Z) : string :=
  NilZero.string_of_int (Z.to_int z).

Section Dict.
Variable V : Type.

(** [d.get(k)] / [k in d] *)
Fixpoint dict_get (k : string) (d : list (string * V)) : option V :=
  match d with
  | [] => None
  | (k', v) :: t => if String.eqb k k' then Some v else dict_get k t
  end.

(** [d[k] = v]: replaces in place, or appends a new key. *)
Fixpoint dict_set (k : string) (v : V) (d : list (string * V))
  : list (string * V) :=
  match d with
  | [] => [(k, v)]
  | (k', v') :: t =>
      if String.eqb k k' then (k', v) :: t else (k', v') :: dict_set k v t
  end.

Definition dict_keys (d : list (string * V)) : list string := map fst d.

Definition dict_mem (k : string) (d : list (string * V)) : bool :=
  match dict_get k d with Some _ => true | None => false end.
End Dict.

(** [del d[k]] *)
Fixpoint dict_del (V : Type) (k : string) (d : list (string * V))
  : list (string * V) :=
  match d with
  | [] => []
  | (k', v') :: t =>
      if String.eqb k k' then t else (k', v') :: dict_del k t
  end.

Definition str_mem (s : string) (l : list string) : bool :=
  existsb (String.eqb s) l.

(** [{a, b, ...} == d.keys()]: equality of sets of strings. *)
Definition set_eqb (l1 l2 : list string) : bool :=
  forallb (fun s => str_mem s l2) l1 && forallb (fun s => str_mem s l1) l2.

(** [v.get(k, default)] *)
Definition py_get (v : pyval) (k : string) (default : pyval) : outcome pyval :=
  match v with
  | PDict d => Return (match dict_get k d with Some x => x | None => default end)
  | PNone => Raise (AttributeError "NoneType" "get")
  | _ => Raise (AttributeError "object" "get")
  end.

Definition list_index (A : Type) (l : list A) (i : Z) : option A :=
  if 0 <=? i then nth_error l (Z.to_nat i)
  else if 0 <=? Z.of_nat (List.length l) + i
       then nth_error l (Z.to_nat (Z.of_nat (List.length l) + i))
       else None.

(** [v[k]] *)
Definition py_subscript (v k : pyval) : outcome pyval :=
  match v, k with
  | PDict d, PStr s =>
      match dict_get s d with Some x => Return x | None => Raise (KeyError s) end
  | PDict _, _ => Raise (KeyError "")      (* a JSON object has string keys only *)
  | PList l, PInt i =>
      match list_index l i with Some x => Return x | None => Raise IndexError end
  | PList l, PBool b =>
      match list_index l (if b then 1 else 0) with
      | Some x => Return x
      | None => Raise IndexError
      end
  | PStr s, PInt i =>
      match list_index (list_ascii_of_string s) i with
      | Some c => Return (PStr (String c EmptyString))
      | None => Raise IndexError
      end
  | _, _ => Raise TypeError
  end.

(** The elements produced by [for x in v]. *)
Definition py_iter (v : pyval) : outcome (list pyval) :=
  match v with
  | PList l => Return l
  | PDict d => Return (map (fun kv => PStr (fst kv)) d)
  | PStr s =>
      Return (map (fun c => PStr (String c EmptyString)) (list_ascii_of_string s))
  | _ => Raise TypeError
  end.

(** [x / 1000] and the like: true division, always a float. *)
Definition py_truediv (v : pyval) (n : Z) : outcome Q :=
  match v with
  | PInt z => Return (inject_Z z / inject_Z n)%Q
  | PBool b => Return (inject_Z (if b then 1 else 0) / inject_Z n)%Q
  | PFloat q => Return (q / inject_Z n)%Q
  | _ => Raise TypeError
  end.

(** [min(a, b)] on two numbers: [b] when [b < a], else [a]. *)
Definition Qmin2 (a b : Q) : Q :=
  if Qle_bool a b then a else b.

(** [min(a, b)] where [a] may still be [None]. *)
Definition py_min (a : option Q) (b : Q) : outcome pyval :=
  match a with
  | None => Raise TypeError
  | Some x => Return (PFloat (Qmin2 x b))
  end.

(** Comprehension over a list with a body that may raise. *)
Fixpoint mapM (A B : Type) (f : A -> outcome B) (l : list A) : outcome (list B) :=
  match l with
  | [] => Return []
  | x :: t =>
      match f x with
      | Raise e => Raise e
      | Return y =>
          match mapM f t with
          | Raise e => Raise e
          | Return ys => Return (y :: ys)
          end
      end
  end.

(* ===================================================================== *)
(** ** Objects                                                            *)
(* ===================================================================== *)

(** Host collaborator (discord).  [gateway_ok] is whether
    [guild.change_voice_state] succeeds for this guild; when it does not,
    the call raises. *)
Record Guild : Type := mkGuild {
  guild_id : Z;
  gateway_ok : bool
}.

Record VoiceChannel : Type := mkVoiceChannel {
  channel_id : Z;
  channel_guild : Guild
}.

(** The fields of [Track] (tracks.py) and [LavapyFilter] (filters.py)
    that player.py reads. *)
Record Track : Type := mkTrack {
  track_id : string;
  track_title : string;
  track_length : Q
}.

Record LavapyFilter : Type := mkFilter {
  filter_name : string;
  filter_payload : pyval
}.

(** Instance attributes of [Player], as set by [Player.__init__]
    (player.py 68-81).  [_paused] is annotated [bool] but holds whatever
    is assigned to it, hence [pyval]; [_lastUpdateTime] is a datetime,
    kept as POSIX seconds. *)
Record Player : Type := mkPlayer {
  channel : VoiceChannel;
  _track : option Track;
  _volume : Z;
  _filters : list (string * LavapyFilter);
  _voiceState : list (string * pyval);
  _connected : bool;
  _paused : pyval;
  _lastUpdateTime : option Q;
  _lastPosition : option Q
}.

Definition Player_init (ch : VoiceChannel) : Player :=
  mkPlayer ch None 100 [] [] false (PBool false) None None.

Definition set_channel (c : VoiceChannel) (p : Player) : Player :=
  mkPlayer c (_track p) (_volume p) (_filters p) (_voiceState p)
           (_connected p) (_paused p) (_lastUpdateTime p) (_lastPosition p).
Definition set__track (t : option Track) (p : Player) : Player :=
  mkPlayer (channel p) t (_volume p) (_filters p) (_voiceState p)
           (_connected p) (_paused p) (_lastUpdateTime p) (_lastPosition p).
Definition set__volume (v : Z) (p : Player) : Player :=
  mkPlayer (channel p) (_track p) v (_filters p) (_voiceState p)
           (_connected p) (_paused p) (_lastUpdateTime p) (_lastPosition p).
Definition set__filters (f : list (string * LavapyFilter)) (p : Player) : Player :=
  mkPlayer (channel p) (_track p) (_volume p) f (_voiceState p)
           (_connected p) (_paused p) (_lastUpdateTime p) (_lastPosition p).
Definition set__voiceState (v : list (string * pyval)) (p : Player) : Player :=
  mkPlayer (channel p) (_track p) (_volume p) (_filters p) v
           (_connected p) (_paused p) (_lastUpdateTime p) (_lastPosition p).
Definition set__connected (b : bool) (p : Player) : Player :=
  mkPlayer (channel p) (_track p) (_volume p) (_filters p) (_voiceState p)
           b (_paused p) (_lastUpdateTime p) (_lastPosition p).
Definition set__paused (v : pyval) (p : Player) : Player :=
  mkPlayer (channel p) (_track p) (_volume p) (_filters p) (_voiceState p)
           (_connected p) v (_lastUpdateTime p) (_lastPosition p).
Definition set__lastUpdateTime (t : option Q) (p : Player) : Player :=
  mkPlayer (channel p) (_track p) (_volume p) (_filters p) (_voiceState p)
           (_connected p) (_paused p) t (_lastPosition p).
Definition set__lastPosition (x : option Q) (p : Player) : Player :=
  mkPlayer (channel p) (_track p) (_volume p) (_filters p) (_voiceState p)
           (_connected p) (_paused p) (_lastUpdateTime p) x.

(** References to Player objects. *)
Definition ident := nat.

(** The websocket a Node owns (websocket.py): the listener task, the
    connection, and the frames written to it by [send_json]. *)
Record Websocket : Type := mkWebsocket {
  listener_cancelled : bool;
  connection_closed : bool;
  sent : list pyval
}.

(** Instance attributes of [Node] that the modelled code touches
    (node.py 64, 67). *)
Record Node : Type := mkNode {
  _players : list ident;
  _websocket : option Websocket
}.

(** [heap]: the Player objects; [node]: the Node every Player got from
    [NodePool.getNode()]; [client_channels]: the channels
    [client.get_channel] can resolve; [clock]: the current time (POSIX
    seconds); [voice_calls]: the [change_voice_state] calls made so far,
    as (player, target channel id). *)
Record World : Type := mkWorld {
  heap : ident -> Player;
  node : Node;
  client_channels : list VoiceChannel;
  clock : Q;
  voice_calls : list (ident * option Z)
}.

Definition set_heap (h : ident -> Player) (w : World) : World :=
  mkWorld h (node w) (client_channels w) (clock w) (voice_calls w).
Definition set_node (n : Node) (w : World) : World :=
  mkWorld (heap w) n (client_channels w) (clock w) (voice_calls w).
Definition set_voice_calls (c : list (ident * option Z)) (w : World) : World :=
  mkWorld (heap w) (node w) (client_channels w) (clock w) c.

Definition heap_upd (h : ident -> Player) (self : ident) (p : Player)
  : ident -> Player :=
  fun i => if Nat.eqb i self then p else h i.

(* ===================================================================== *)
(** ** Coroutines: state and exceptions                                   *)
(* ===================================================================== *)

Definition M (A : Type) : Type := World -> outcome A * World.

Definition ret (A : Type) (a : A) : M A := fun w => (Return a, w).
Definition raise (A : Type) (e : exn) : M A := fun w => (Raise e, w).
Definition bind (A B : Type) (c : M A) (k : A -> M B) : M B :=
  fun w =>
    match c w with
    | (Return a, w') => k a w'
    | (Raise e, w') => (Raise e, w')
    end.
Definition lift (A : Type) (o : outcome A) : M A := fun w => (o, w).
Arguments ret {A} a _.
Arguments raise {A} e _.
Arguments lift {A} o _.

Declare Scope py_scope.
Delimit Scope py_scope with py.
Notation "x <- c ;; k" := (bind c (fun x => k))
  (at level 61, c at next level, right associativity) : py_scope.
Notation "c ;; k" := (bind c (fun _ => k))
  (at level 61, right associativity) : py_scope.
Open Scope py_scope.

(** Pure code that may raise. *)
Definition obind (A B : Type) (o : outcome A) (k : A -> outcome B) : outcome B :=
  match o with
  | Return a => k a
  | Raise e => Raise e
  end.

Definition get_player (self : ident) : M Player :=
  fun w => (Return (heap w self), w).
Definition update_player (self : ident) (f : Player -> Player) : M unit :=
  fun w => (Return tt, set_heap (heap_upd (heap w) self (f (heap w self))) w).

(** [logger.debug(f"...")]: the message is built first, which evaluates
    the expressions inside the f-string; the text itself is not kept. *)
Definition logger_debug (msg : outcome string) : M unit :=
  match msg with
  | Return _ => ret tt
  | Raise e => raise e
  end.

(* ===================================================================== *)
(** ** Module-level names of player.py                                    *)
(* ===================================================================== *)

(** What a global name of player.py refers to after the import
    statements at the top of the file have run, and attribute lookup on
    it.  Only the [datetime] module is followed: it is the one whose
    names the modelled methods dereference. *)
Inductive pyref : Type :=
| RModule (m : string)
| RAttr (owner : pyref) (a : string).

Fixpoint pyref_eqb (r1 r2 : pyref) : bool :=
  match r1, r2 with
  | RModule m1, RModule m2 => String.eqb m1 m2
  | RAttr o1 a1, RAttr o2 a2 => pyref_eqb o1 o2 && String.eqb a1 a2
  | _, _ => false
  end.

Inductive import_stmt : Type :=
| Import_ (m : string)                              (* import m *)
| From_import (m : string) (names : list string).   (* from m import a, b *)

Definition exec_import (env : list (string * pyref)) (st : import_stmt)
  : list (string * pyref) :=
  match st with
  | Import_ m => dict_set m (RModule m) env
  | From_import m names =>
      fold_left (fun e n => dict_set n (RAttr (RModule m) n) e) names env
  end.

(** player.py 24-39, in order. *)
Definition player_py_imports : list import_stmt :=
  [ From_import "__future__" ["annotations"];
    Import_ "datetime";
    Import_ "logging";
    From_import "datetime" ["datetime"; "timezone"];
    From_import "typing" ["Union"; "Optional"; "Any"; "Dict"; "Type"];
    From_import "discord" ["VoiceProtocol"; "VoiceChannel"; "Guild"];
    From_import ".filters" ["LavapyFilter"];
    From_import ".exceptions"
      ["InvalidIdentifier"; "FilterAlreadyExists"; "FilterNotApplied"];
    From_import ".node" ["Node"];
    From_import ".pool" ["NodePool"];
    From_import ".tracks" ["Track"];
    From_import ".queue" ["Queue"];
    From_import ".utils" ["ClientType"] ].

Definition player_py_globals : list (string * pyref) :=
  fold_left exec_import player_py_imports [].

Definition datetime_module : pyref := RModule "datetime".
Definition datetime_class : pyref := RAttr datetime_module "datetime".
Definition timezone_class : pyref := RAttr datetime_module "timezone".

(** Public names of the standard [datetime] module, of its class
    [datetime] and of its class [timezone]. *)
Definition datetime_module_attrs : list string :=
  ["MAXYEAR"; "MINYEAR"; "UTC"; "date"; "datetime"; "time"; "timedelta";
   "timezone"; "tzinfo"].
Definition datetime_class_attrs : list string :=
  ["astimezone"; "combine"; "ctime"; "date"; "day"; "dst"; "fold";
   "fromisocalendar"; "fromisoformat"; "fromordinal"; "fromtimestamp";
   "hour"; "isocalendar"; "isoformat"; "isoweekday"; "max"; "microsecond";
   "min"; "minute"; "month"; "now"; "replace"; "resolution"; "second";
   "strftime"; "strptime"; "time"; "timestamp"; "timetuple"; "timetz";
   "today"; "toordinal"; "tzinfo"; "tzname"; "utcfromtimestamp"; "utcnow";
   "utcoffset"; "utctimetuple"; "weekday"; "year"].
Definition timezone_class_attrs : list string :=
  ["dst"; "fromutc"; "max"; "min"; "tzname"; "utc"; "utcoffset"].

Definition attrs_of (r : pyref) : list string :=
  if pyref_eqb r datetime_module then datetime_module_attrs
  else if pyref_eqb r datetime_class then datetime_class_attrs
  else if pyref_eqb r timezone_class then timezone_class_attrs
  else [].

Definition describe (r : pyref) : string :=
  match r with
  | RModule m => "module " ++ m
  | RAttr _ a => "type object " ++ a
  end.

(** A global name of player.py. *)
Definition global_name (n : string) : outcome pyref :=
  match dict_get n player_py_globals with
  | Some r => Return r
  | None => Raise (NameError n)
  end.

(** [r.a] *)
Definition getattr (r : pyref) (a : string) : outcome pyref :=
  if str_mem a (attrs_of r) then Return (RAttr r a)
  else Raise (AttributeError (describe r) a).

(** Calling [datetime.now(tz)] of the standard library class. *)
Definition call_now (f : pyref) (now : Q) : outcome Q :=
  if pyref_eqb f (RAttr datetime_class "now") then Return now
  else Raise TypeError.

(** Rounding to the nearest integer, ties to the even one. *)
Definition round_half_even (q : Q) : Z :=
  let f := Qfloor q in
  match Qcompare (q - inject_Z f) (1 # 2) with
  | Lt => f
  | Gt => f + 1
  | Eq => if Z.even f then f else f + 1
  end.

(** Calling [datetime.fromtimestamp(secs, tz)] of the standard library
    class, with [tz = timezone.utc].  The timestamp is rounded to a
    whole number of microseconds (ties to even).  The result is a
    datetime of the years 1 to 9999; outside them the call raises:
    ValueError while the year still fits the C library's calendar,
    OSError beyond that, OverflowError beyond the range of [time_t]
    (CPython on 64-bit Linux).  A datetime is kept as POSIX seconds;
    a timestamp that is a whole number of microseconds is kept as
    given. *)
Definition call_fromtimestamp (f : pyref) (secs : Q) : outcome Q :=
  if pyref_eqb f (RAttr datetime_class "fromtimestamp") then
    let us := round_half_even (secs * 1000000) in
    let s := us / 1000000 in
    if (s <? - 9223372036854775808) || (9223372036854775807 <? s)
    then Raise OverflowError
    else if (s <? - 67768040609740800) || (67768036191676799 <? s)
    then Raise OSError
    else if (s <? - 62135596800) || (253402300799 <? s)
    then Raise ValueError
    else if Qeq_bool (inject_Z us) (secs * 1000000) then Return secs
    else Return (inject_Z us / 1000000)%Q
  else Raise TypeError.

(* ===================================================================== *)
(** ** class Node: namespace                                              *)
(* ===================================================================== *)

(** What an attribute name resolves to on an instance of [Node]: an
    instance attribute set by [__init__] (node.py 57-67), or one of the
    class's own definitions (node.py 56-272): two special methods, ten
    properties and seven coroutines. *)
Inductive NodeMember : Type :=
| mem_attribute (name : string)
| mem_special (name : string)
| mem_client | mem_host | mem_port | mem_password | mem_region
| mem_spotifyClient | mem_identifier | mem_players | mem_stats | mem_session
| mem_connect | mem_disconnect | mem__getData | mem__send | mem_buildTrack
| mem_getTracks | mem_processPartialResource.

(** Name to member.  The class has no base class and no [__getattr__],
    so a name that is not listed raises AttributeError. *)
Definition Node_class : list (string * NodeMember) :=
  [ ("_client", mem_attribute "_client"); ("_host", mem_attribute "_host");
    ("_port", mem_attribute "_port"); ("_password", mem_attribute "_password");
    ("_region", mem_attribute "_region");
    ("_spotifyClient", mem_attribute "_spotifyClient");
    ("_identifier", mem_attribute "_identifier");
    ("_players", mem_attribute "_players"); ("_stats", mem_attribute "_stats");
    ("_session", mem_attribute "_session");
    ("_websocket", mem_attribute "_websocket");
    ("__init__", mem_special "__init__"); ("__repr__", mem_special "__repr__");
    ("client", mem_client); ("host", mem_host); ("port", mem_port);
    ("password", mem_password); ("region", mem_region);
    ("spotifyClient", mem_spotifyClient); ("identifier", mem_identifier);
    ("players", mem_players); ("stats", mem_stats); ("session", mem_session);
    ("connect", mem_connect); ("disconnect", mem_disconnect);
    ("_getData", mem__getData); ("_send", mem__send);
    ("buildTrack", mem_buildTrack); ("getTracks", mem_getTracks);
    ("processPartialResource", mem_processPartialResource) ].

(** A class that differs from [Node] only in also answering to the name
    [send] with the coroutine [_send].  It is not in the source; it is
    used to tell what a caller of [node.send] does after that call, were
    the name to resolve. *)
Definition Node_class_with_send : list (string * NodeMember) :=
  ("send", mem__send) :: Node_class.

(** [Node._send] (node.py 179-190): writes the payload to the
    websocket connection. *)
Definition Node__send (payload : pyval) : M unit :=
  fun w =>
    match _websocket (node w) with
    | None => (Raise (AttributeError "NoneType" "connection"), w)
    | Some ws =>
        (Return tt,
         set_node (mkNode (_players (node w))
                     (Some (mkWebsocket (listener_cancelled ws)
                              (connection_closed ws)
                              (sent ws ++ [payload])))) w)
    end.

(** The frames written to the node's websocket so far. *)
Definition frames_sent (w : World) : list pyval :=
  match _websocket (node w) with
  | Some ws => sent ws
  | None => []
  end.

(* ===================================================================== *)
(** ** class Player                                                       *)
(* ===================================================================== *)

(** [str(self.guild.id)], with [guild] the property
    [self.channel.guild] (player.py 86-89). *)
Definition guildId (p : Player) : pyval :=
  PStr (str_of_int (guild_id (channel_guild (channel p)))).

(** Properties (player.py 128-141). *)
Definition isConnected (p : Player) : bool := _connected p.

Definition isPlaying (p : Player) : bool :=
  isConnected p && match _track p with Some _ => true | None => false end.

Definition isPaused (p : Player) : pyval := _paused p.

(** [self.track.length] *)
Definition track_length_of (t : option Track) : outcome Q :=
  match t with
  | Some tr => Return (track_length tr)
  | None => Raise (AttributeError "NoneType" "length")
  end.

(** [self.track.title] *)
Definition track_title_of (t : option Track) : outcome string :=
  match t with
  | Some tr => Return (track_title tr)
  | None => Raise (AttributeError "NoneType" "title")
  end.

(** [a - b] on a datetime and an attribute that may still be [None],
    then [.total_seconds()]. *)
Definition seconds_between (a : Q) (b : option Q) : outcome Q :=
  match b with
  | Some t0 => Return (a - t0)%Q
  | None => Raise TypeError
  end.

(** [a + b] where [a] may still be [None]. *)
Definition add_seconds (a : option Q) (b : Q) : outcome Q :=
  match a with
  | Some x => Return (x + b)%Q
  | None => Raise TypeError
  end.

(** Property [position] (player.py 116-126); [now] is the reading of
    the clock. *)
Definition position (now : Q) (p : Player) : outcome pyval :=
  if negb (isPlaying p) then Return (PInt 0)
  else if truthy (isPaused p) then
    obind (track_length_of (_track p)) (fun len =>
    py_min (_lastPosition p) len)
  else
    (* datetime.datetime.now(timezone.utc) *)
    obind (global_name "datetime") (fun d =>
    obind (getattr d "datetime") (fun c =>
    obind (getattr c "now") (fun f =>
    obind (global_name "timezone") (fun tz =>
    obind (getattr tz "utc") (fun _ =>
    obind (call_now f now) (fun t =>
    obind (seconds_between t (_lastUpdateTime p)) (fun timeSinceLastUpdate =>
    obind (add_seconds (_lastPosition p) timeSinceLastUpdate) (fun x =>
    obind (track_length_of (_track p)) (fun len =>
    Return (PFloat (Qmin2 x len))))))))))).

(** [Player._updateState] (player.py 143-156). *)
Definition _updateState (self : ident) (state : pyval) : M unit :=
  state' <- lift (py_get state "state" PNone) ;;
  (* datetime.fromtimestamp(state.get("time")/1000, timezone.utc) *)
  f <- lift (obind (global_name "datetime") (fun d => getattr d "fromtimestamp")) ;;
  time <- lift (py_get state' "time" PNone) ;;
  secs <- lift (py_truediv time 1000) ;;
  _ <- lift (obind (global_name "timezone") (fun tz => getattr tz "utc")) ;;
  t <- lift (call_fromtimestamp f secs) ;;
  update_player self (set__lastUpdateTime (Some t)) ;;
  pos <- lift (py_get state' "position" (PInt 0)) ;;
  x <- lift (py_truediv pos 1000) ;;
  update_player self (set__lastPosition (Some x)).

(** [self.guild.change_voice_state(channel=...)]: the host call is
    recorded; it raises when the guild's gateway refuses it. *)
Definition change_voice_state (self : ident) (target : option Z) : M unit :=
  fun w =>
    let w' := set_voice_calls (voice_calls w ++ [(self, target)]) w in
    if gateway_ok (channel_guild (channel (heap w self)))
    then (Return tt, w')
    else (Raise HostError, w').

(** [list.remove(x)]: drops the first occurrence; [None] stands for the
    ValueError raised when there is none. *)
Fixpoint list_remove (x : ident) (l : list ident) : option (list ident) :=
  match l with
  | [] => None
  | y :: t =>
      if Nat.eqb x y then Some t
      else match list_remove x t with
           | Some t' => Some (y :: t')
           | None => None
           end
  end.

(** [self.client.get_channel(channelID)] *)
Definition get_channel (w : World) (channelID : pyval) : option VoiceChannel :=
  match channelID with
  | PInt z => find (fun c => channel_id c =? z) (client_channels w)
  | _ => None
  end.

(** [channel != self.channel] on discord channels: by id; [None] differs
    from every channel. *)
Definition channel_neq (c : option VoiceChannel) (mine : VoiceChannel) : bool :=
  match c with
  | Some c' => negb (channel_id c' =? channel_id mine)
  | None => true
  end.

Section WithNodeClass.

(** The namespace in which the attributes of [self.node] are looked
    up: [Node_class] for the source. *)
Variable node_cls : list (string * NodeMember).

(** [await self.node.send(payload)] *)
Definition node_send (payload : pyval) : M unit :=
  match dict_get "send" node_cls with
  | Some mem__send => Node__send payload
  | Some _ => raise TypeError
  | None => raise (AttributeError "Node" "send")
  end.

(** [self.node.players], the list object itself. *)
Definition node_players : M (list ident) :=
  match dict_get "players" node_cls with
  | Some mem_players => fun w => (Return (_players (node w)), w)
  | Some _ => raise TypeError
  | None => raise (AttributeError "Node" "players")
  end.

Definition set_node_players (l : list ident) : M unit :=
  fun w => (Return tt, set_node (mkNode l (_websocket (node w))) w).

(** [Player._sendVoiceUpdate] (player.py 196-210). *)
Definition _sendVoiceUpdate (self : ident) : M unit :=
  p <- get_player self ;;
  if set_eqb ["sessionId"; "event"] (dict_keys (_voiceState p)) then
    sessionId <- lift (py_subscript (PDict (_voiceState p)) (PStr "sessionId")) ;;
    event <- lift (py_subscript (PDict (_voiceState p)) (PStr "event")) ;;
    let voiceUpdate :=
      PDict [ ("op", PStr "voiceUpdate");
              ("guildId", guildId p);
              ("sessionId", sessionId);
              ("event", event) ] in
    node_send voiceUpdate
  else ret tt.

(** [Player.on_voice_server_update] (player.py 158-169). *)
Definition on_voice_server_update (self : ident) (data : pyval) : M unit :=
  update_player self
    (fun p => set__voiceState (dict_set "event" data (_voiceState p)) p) ;;
  _sendVoiceUpdate self.

(** [Player.on_voice_state_update] (player.py 171-194). *)
Definition on_voice_state_update (self : ident) (data : pyval) : M unit :=
  session_id <- lift (py_subscript data (PStr "session_id")) ;;
  update_player self
    (fun p => set__voiceState (dict_set "sessionId" session_id (_voiceState p)) p) ;;
  channelID <- lift (py_subscript data (PStr "channel_id")) ;;
  if is_None channelID then
    (* Disconnecting *)
    update_player self (set__voiceState [])
  else
    p <- get_player self ;;
    ch <- (fun w => (Return (get_channel w channelID), w)) ;;
    (if channel_neq ch (channel p) then
       match ch with
       | None => raise (AttributeError "NoneType" "id")   (* f"{channel.id}" *)
       | Some c => update_player self (set_channel c)
       end
     else ret tt) ;;
    _sendVoiceUpdate self.

(** [Player.connect] (player.py 212-228). *)
Definition Player_connect (self : ident) : M unit :=
  p <- get_player self ;;
  change_voice_state self (Some (channel_id (channel p))) ;;
  l <- node_players ;;
  set_node_players (l ++ [self]) ;;
  update_player self (set__connected true).

(** [Player.disconnect] (player.py 230-244). *)
Definition Player_disconnect (self : ident) : M unit :=
  change_voice_state self None ;;
  l <- node_players ;;
  match list_remove self l with
  | None => raise ValueError
  | Some l' =>
      set_node_players l' ;;
      update_player self (set__connected false)
  end.

(** [Player.play] (player.py 246-283). *)
Definition Player_play (self : ident) (track : Track)
           (startTime endTime volume : Z) (replace pause : bool) : M unit :=
  p <- get_player self ;;
  if isPlaying p && negb replace then ret tt
  else
    let newTrack :=
      [ ("op", PStr "play");
        ("guildId", guildId p);
        ("track", PStr (track_id track));
        ("startTime", PStr (str_of_int startTime));
        ("volume", PStr (str_of_int volume));
        ("noReplace", PBool (negb replace));
        ("pause", PBool pause) ] in
    let newTrack :=
      if 0 <? endTime
      then dict_set "endTime" (PStr (str_of_int endTime)) newTrack
      else newTrack in
    update_player self (fun p => set__volume volume (set__track (Some track) p)) ;;
    node_send (PDict newTrack).
    (* the closing logger.debug formats [self.track.title], now set *)

(** [Player.stop] (player.py 285-298). *)
Definition Player_stop (self : ident) : M unit :=
  p <- get_player self ;;
  let stop := PDict [ ("op", PStr "stop"); ("guildId", guildId p) ] in
  let tempTrack := _track p in
  update_player self (set__track None) ;;
  node_send stop ;;
  logger_debug (track_title_of tempTrack).

(** [Player._togglePause] (player.py 314-332).  The local name [pause]
    is the parameter until line 324 rebinds it to the dict. *)
Definition _togglePause (self : ident) (pause : bool) : M unit :=
  p <- get_player self ;;
  let pause :=
    PDict [ ("op", PStr "pause");
            ("guildId", guildId p);
            ("pause", PBool pause) ] in
  update_player self (set__paused pause) ;;
  node_send pause.
  (* the closing logger.debug formats [pause] and [self.channel.id] *)

(** [Player.pause] and [Player.resume] (player.py 300-312). *)
Definition Player_pause (self : ident) : M unit := _togglePause self true.
Definition Player_resume (self : ident) : M unit := _togglePause self false.

(** [Player.seek] (player.py 334-358). *)
Definition Player_seek (self : ident) (pos : Z) : M unit :=
  p <- get_player self ;;
  len <- lift (track_length_of (_track p)) ;;
  if negb (Qle_bool (inject_Z pos) len) then       (* position > length *)
    raise InvalidIdentifier
  else
    let seek :=
      PDict [ ("op", PStr "seek");
              ("guildId", guildId p);
              ("position", PInt pos) ] in
    node_send seek.

(** [Player._updateFilters] (player.py 446-458). *)
Definition _updateFilters (self : ident) : M unit :=
  p <- get_player self ;;
  let filterPayload :=
    [ ("op", PStr "filters");
      ("guildId", guildId p);
      ("volume", PFloat (inject_Z (_volume p) / 100)) ] in
  let filterPayload :=
    fold_left
      (fun acc kv => dict_set (filter_name (snd kv)) (filter_payload (snd kv)) acc)
      (_filters p) filterPayload in
  node_send (PDict filterPayload).

(** [Player.addFilter] (player.py 392-417). *)
Definition Player_addFilter (self : ident) (filter : LavapyFilter) : M unit :=
  p <- get_player self ;;
  let name := filter_name filter in
  if str_mem (filter_name filter) (dict_keys (_filters p)) then
    raise FilterAlreadyExists
  else
    update_player self
      (fun p => set__filters (dict_set name filter (_filters p)) p) ;;
    _updateFilters self.

(** [Player.setVolume] (player.py 360-378).  The local name [volume]
    is rebound to the command dict after the clamped value is stored. *)
Definition Player_setVolume (self : ident) (volume : Z) : M unit :=
  update_player self (set__volume (Z.max (Z.min volume 1000) 0)) ;;
  p <- get_player self ;;
  let volume :=
    PDict [ ("op", PStr "volume");
            ("guildId", guildId p);
            ("volume", PInt (_volume p)) ] in
  node_send volume.

(** [Player.moveTo] (player.py 380-390). *)
Definition Player_moveTo (self : ident) (target : VoiceChannel) : M unit :=
  change_voice_state self (Some (channel_id target)).

(** [Player.removeFilter] (player.py 419-444); only the [name] of the
    argument is read. *)
Definition Player_removeFilter (self : ident) (filter : LavapyFilter) : M unit :=
  p <- get_player self ;;
  let name := filter_name filter in
  if negb (str_mem name (dict_keys (_filters p))) then
    raise FilterNotApplied
  else
    update_player self
      (fun p => set__filters (dict_del name (_filters p)) p) ;;
    _updateFilters self.

End WithNodeClass.

(* ===================================================================== *)
(** ** class Node                                                         *)
(* ===================================================================== *)

(** The [for player in self.players] loop of [Node.disconnect]
    (node.py 148-149).  A Python list iterator keeps an index into the
    list object and stops when the index reaches the current length; the
    loop body changes that same list.  [fuel] bounds the number of
    iterations; [None] is "fuel exhausted". *)
Fixpoint disconnect_loop (fuel : nat) (i : nat) (w : World)
  : option (outcome unit * World) :=
  match fuel with
  | O => None
  | S fuel' =>
      match nth_error (_players (node w)) i with
      | None => Some (Return tt, w)
      | Some player =>
          match Player_disconnect Node_class player w with
          | (Return _, w') => disconnect_loop fuel' (S i) w'
          | (Raise e, w') => Some (Raise e, w')
          end
      end
  end.

(** [self._websocket.listener.cancel()] then
    [await self._websocket.connection.close()] (node.py 151-152). *)
Definition close_websocket : M unit :=
  fun w =>
    match _websocket (node w) with
    | None => (Raise (AttributeError "NoneType" "listener"), w)
    | Some ws =>
        (Return tt,
         set_node (mkNode (_players (node w))
                     (Some (mkWebsocket true true (sent ws)))) w)
    end.

(** [Node.disconnect] (node.py 138-152). *)
Definition Node_disconnect (w : World) : option (outcome unit * World) :=
  match disconnect_loop (S (List.length (_players (node w)))) 0 w with
  | None => None
  | Some (Raise e, w') => Some (Raise e, w')
  | Some (Return _, w') => Some (close_websocket w')
  end.

(** The class passed as [cls] to [Node.getTracks]: calling it builds an
    instance; [cls__trackCls] is its class attribute [_trackCls], which
    only collection classes have. *)
Record PyClass : Type := mkClass {
  cls_name : string;
  cls__trackCls : option string
}.

Definition construct (c : string) (a b : pyval) : pyval := PObj c [a; b].

Definition trackCls_of (cls : PyClass) : outcome string :=
  match cls__trackCls cls with
  | Some c => Return c
  | None => Raise (AttributeError (cls_name cls) "_trackCls")
  end.

(** [Node.getTracks] (node.py 217-254), from the point where
    [self._getData] has returned [data] and a response of status
    [status]. *)
Definition getTracks (cls : PyClass) (status : Z) (data : pyval) : outcome pyval :=
  if negb (status =? 200) then Raise LavalinkException
  else
    obind (py_get data "loadType" PNone) (fun loadType =>
    if eq_str loadType "LOAD_FAILED" then Raise (LoadTrackError data)
    else if eq_str loadType "NO_MATCHES" then Return PNone
    else if eq_str loadType "TRACK_LOADED" then
      obind (py_subscript data (PStr "tracks")) (fun tracks =>
      obind (py_subscript tracks (PInt 0)) (fun trackInfo =>
      obind (py_subscript trackInfo (PStr "track")) (fun t =>
      obind (py_subscript trackInfo (PStr "info")) (fun i =>
      Return (construct (cls_name cls) t i)))))
    else if eq_str loadType "SEARCH_RESULT" then
      obind (py_subscript data (PStr "tracks")) (fun tracks =>
      obind (py_iter tracks) (fun elements =>
      obind (mapM (fun element =>
                     obind (py_subscript element (PStr "track")) (fun t =>
                     obind (py_subscript element (PStr "info")) (fun i =>
                     Return (construct (cls_name cls) t i))))
                  elements) (fun l =>
      Return (PList l))))
    else if eq_str loadType "PLAYLIST_LOADED" then
      obind (py_subscript data (PStr "playlistInfo")) (fun playlistInfo =>
      obind (py_subscript playlistInfo (PStr "name")) (fun name =>
      obind (py_subscript data (PStr "tracks")) (fun tracks =>
      obind (py_iter tracks) (fun elements =>
      obind (mapM (fun track =>
                     obind (trackCls_of cls) (fun tc =>
                     obind (py_subscript track (PStr "track")) (fun t =>
                     obind (py_subscript track (PStr "info")) (fun i =>
                     Return (construct tc t i)))))
                  elements) (fun l =>
      Return (construct (cls_name cls) name (PList l)))))))
    else Return PNone).

(** [Node.connect] (node.py 122-136).  [Websocket(self)] (websocket.py)
    is taken to yield a websocket whose listener runs, whose connection
    is open and on which nothing was sent yet. *)
Definition Node_connect : M unit :=
  fun w =>
    match _websocket (node w) with
    | None =>
        (Return tt,
         set_node (mkNode (_players (node w)) (Some (mkWebsocket false false []))) w)
    | Some _ => (Raise WebsocketAlreadyExists, w)
    end.

(** [Node.processPartialResource] (node.py 256-272), from the point
    where [self._getData] has returned inside [getTracks]; [cls] is
    [partial.cls]. *)
Definition processPartialResource (cls : PyClass) (status : Z) (data : pyval)
  : outcome pyval :=
  obind (getTracks cls status data) (fun temp =>
  py_subscript temp (PInt 0)).

(** The response [req] that [self.session.get(...)] hands to
    [Node._getData]: its [status], and what [await req.json()] does with
    its body, which is to return the decoded value or to raise. *)
Record ClientResponse : Type := mkResponse {
  resp_status : Z;
  resp_json : outcome pyval
}.

(** [Node._getData] (node.py 154-177), from the point where the request
    has been answered by [req]: the body is decoded at line 176, before
    anything looks at the status. *)
Definition _getData (req : ClientResponse) : outcome (pyval * ClientResponse) :=
  obind (resp_json req) (fun data =>
  Return (data, req)).

(** [Node.getTracks] (node.py 217-254) as a whole: line 235 unpacks what
    [_getData] returns, the rest is [getTracks] above. *)
Definition Node_getTracks (cls : PyClass) (req : ClientResponse) : outcome pyval :=
  obind (_getData req) (fun dr =>
  getTracks cls (resp_status (snd dr)) (fst dr)).

(* ===================================================================== *)
(** ** Events (events.py)                                                 *)
(* ===================================================================== *)

(** A [LavapyEvent]: the event name and the payload dict. *)
Record LavapyEvent : Type := mkEvent {
  event_name : string;
  _payload : list (string * pyval)
}.

(** [LavapyEvent.__init__] (events.py 56-58). *)
Definition LavapyEvent_init (name : string) (player : pyval) : LavapyEvent :=
  mkEvent name [("player", player)].

(** [self._payload[k] = v] *)
Definition payload_set (k : string) (v : pyval) (e : LavapyEvent) : LavapyEvent :=
  mkEvent (event_name e) (dict_set k v (_payload e)).

(** [TrackStartEvent.__init__] (events.py 86-88). *)
Definition TrackStartEvent (player track : pyval) : outcome LavapyEvent :=
  Return (payload_set "track" track (LavapyEvent_init "track_start" player)).

(** [TrackEndEvent.__init__] (events.py 113-116). *)
Definition TrackEndEvent (player track data : pyval) : outcome LavapyEvent :=
  let e := payload_set "track" track (LavapyEvent_init "track_end" player) in
  obind (py_subscript data (PStr "reason")) (fun reason =>
  Return (payload_set "reason" reason e)).

(** [TrackExceptionEvent.__init__] (events.py 141-149). *)
Definition TrackExceptionEvent (player track data : pyval) : outcome LavapyEvent :=
  let e := payload_set "track" track (LavapyEvent_init "track_exception" player) in
  obind (py_get data "error" PNone) (fun error =>
  if truthy error then
    (* User is running Lavalink <= 3.3 *)
    obind (py_subscript data (PStr "error")) (fun x =>
    Return (payload_set "exception" x e))
  else
    (* User is running Lavalink >= 3.4 *)
    obind (py_subscript data (PStr "exception")) (fun x =>
    Return (payload_set "exception" x e))).

(** [TrackStuckEvent.__init__] (events.py 174-177). *)
Definition TrackStuckEvent (player track data : pyval) : outcome LavapyEvent :=
  let e := payload_set "track" track (LavapyEvent_init "track_stuck" player) in
  obind (py_subscript data (PStr "thresholdMs")) (fun threshold =>
  Return (payload_set "threshold" threshold e)).

(** [WebsocketClosedEvent.__init__] (events.py 200-204). *)
Definition WebsocketClosedEvent (player data : pyval) : outcome LavapyEvent :=
  let e := LavapyEvent_init "websocket_closed" player in
  obind (py_subscript data (PStr "reason")) (fun reason =>
  let e := payload_set "reason" reason e in
  obind (py_subscript data (PStr "code")) (fun code =>
  let e := payload_set "code" code e in
  obind (py_subscript data (PStr "byRemote")) (fun byRemote =>
  Return (payload_set "byRemote" byRemote e)))).

(* ===================================================================== *)
(** ** Statements about runs, and sample objects                          *)
(* ===================================================================== *)

(** [Player.disconnect] was called on [p]: its first statement, the
    host call with [channel=None], was made. *)
Definition leave_calls (l : list ident) : list (ident * option Z) :=
  map (fun p => (p, @None Z)) l.


Definition gateway_of (w : World) (p : ident) : bool :=
  gateway_ok (channel_guild (channel (heap w p))).


(** A response entry [{"track": t, "info": i}] (possibly with more
    keys) and its two fields. *)
Definition entry_fields (e : pyval) : option (pyval * pyval) :=
  match e with
  | PDict d =>
      match dict_get "track" d, dict_get "info" d with
      | Some t, Some i => Some (t, i)
      | _, _ => None
      end
  | _ => None
  end.

Definition construct_pair (c : string) (ti : pyval * pyval) : pyval :=
  construct c (fst ti) (snd ti).

(** The five load types [getTracks] branches on. *)
Definition known_loadTypes : list string :=
  ["LOAD_FAILED"; "NO_MATCHES"; "TRACK_LOADED"; "SEARCH_RESULT";
   "PLAYLIST_LOADED"].

(** [data.get("loadType")] on a dict. *)
Definition loadType_of (d : list (string * pyval)) : pyval :=
  match dict_get "loadType" d with Some x => x | None => PNone end.

Definition guild_up : Guild := mkGuild 1 true.
Definition guild_down : Guild := mkGuild 2 false.
Definition chan_up : VoiceChannel := mkVoiceChannel 10 guild_up.
Definition chan_down : VoiceChannel := mkVoiceChannel 20 guild_down.
Definition track60 : Track := mkTrack "QAAAjA==" "sixty" 60.
Definition open_websocket : Websocket := mkWebsocket false false [].

(** One Player (reference 0), freshly constructed on [chan_up]; the
    node has an open websocket. *)
Definition world_fresh : World :=
  mkWorld (fun _ => Player_init chan_up)
          (mkNode [] (Some open_websocket)) [chan_up] 0 [].

(** [world_fresh] after [connect()] and [play(t)] on Player 0: the
    Player is attached, connected and has [t] as its current track. *)
Definition world_playing (t : Track) : World :=
  snd (Player_play Node_class 0%nat t 0 0 100 true false
         (snd (Player_connect Node_class 0%nat world_fresh))).

(** The state-sync frame [{"state": {"time": 1000000, "position": 10000}}]:
    position 10 s at server time 1000 s. *)
Definition snapshot_frame : pyval :=
  PDict [("state", PDict [("time", PInt 1000000); ("position", PInt 10000)])].

(** [world_playing t] after that frame was processed, 5 s later. *)
Definition world_synced (t : Track) : World :=
  let w := snd (_updateState 0%nat snapshot_frame (world_playing t)) in
  mkWorld (heap w) (node w) (client_channels w) 1005 (voice_calls w).


Definition sample_filter : LavapyFilter :=
  mkFilter "karaoke" (PDict [("level", PFloat 1)]).

Definition track_cls : PyClass := mkClass "YoutubeTrack" None.
Definition playlist_cls : PyClass := mkClass "YoutubePlaylist" (Some "YoutubeTrack").

Definition entry (t i : string) : pyval :=
  PDict [("track", PStr t); ("info", PDict [("title", PStr i)])].

Definition response (loadType : string) (tracks : list pyval) : list (string * pyval) :=
  [ ("loadType", PStr loadType);
    ("playlistInfo", PDict [("name", PStr "mix")]);
    ("tracks", PList tracks) ].

(** The command dicts the Player methods build. *)
Definition pause_frame (p : Player) (flag : bool) : pyval :=
  PDict [("op", PStr "pause"); ("guildId", guildId p); ("pause", PBool flag)].

Definition stop_frame (p : Player) : pyval :=
  PDict [("op", PStr "stop"); ("guildId", guildId p)].

Definition seek_frame (p : Player) (pos : Z) : pyval :=
  PDict [("op", PStr "seek"); ("guildId", guildId p); ("position", PInt pos)].

Definition voiceUpdate_frame (p : Player) (sessionId event : pyval) : pyval :=
  PDict [ ("op", PStr "voiceUpdate"); ("guildId", guildId p);
          ("sessionId", sessionId); ("event", event) ].

(** The payload [_updateFilters] builds from a Player. *)
Definition filters_frame (p : Player) : pyval :=
  PDict
    (fold_left
       (fun acc kv => dict_set (filter_name (snd kv)) (filter_payload (snd kv)) acc)
       (_filters p)
       [ ("op", PStr "filters");
         ("guildId", guildId p);
         ("volume", PFloat (inject_Z (_volume p) / 100)) ]).

(** What holds between the world [w] at the start of the loop (or of
    [Node.disconnect]) and the world [w'] where it ends with [r];
    [calls] are the Players whose disconnect was called, in order. *)
Definition fanout_post (w : World) (r : outcome unit) (w' : World)
           (calls : list ident) : Prop :=
  voice_calls w' = (voice_calls w ++ leave_calls calls)%list /\
  (forall q, channel (heap w' q) = channel (heap w q)) /\
  (forall q, _connected (heap w q) = false -> _connected (heap w' q) = false) /\
  match r with
  | Return _ =>
      Forall (fun p => gateway_of w p = true /\ _connected (heap w' p) = false) calls /\
      Permutation (_players (node w)) (calls ++ _players (node w'))
  | Raise e =>
      e = HostError /\
      exists done p,
        calls = (done ++ [p])%list /\
        gateway_of w p = false /\
        In p (_players (node w')) /\
        Forall (fun q => gateway_of w q = true /\ _connected (heap w' q) = false) done /\
        Permutation (_players (node w)) (done ++ _players (node w'))
  end.

(** No step of the content-level branches raises the transport error. *)
Definition content_level (A : Type) (o : outcome A) : Prop :=
  o <> Raise LavalinkException.

(** Two connected Players attached to the node, both on a guild that
    accepts voice state changes. *)
Definition world_two_up : World :=
  mkWorld (fun _ => set__connected true (Player_init chan_up))
          (mkNode [1%nat; 2%nat] (Some open_websocket)) [chan_up] 0 [].

(** Every other element of a list: with [keep = true], those at
    positions 0, 2, 4, ...; with [keep = false], those at 1, 3, 5, ... *)
Fixpoint alternate (keep : bool) (l : list ident) : list ident :=
  match l with
  | [] => []
  | a :: t => if keep then a :: alternate false t else alternate true t
  end.

(** The filter map is keyed by the names of the filters it holds, each
    name once. *)
Definition filters_ok (p : Player) : Prop :=
  NoDup (dict_keys (_filters p)) /\
  Forall (fun kv => fst kv = filter_name (snd kv)) (_filters p).

(** What the loop of [Node.disconnect] does from index [length pre] on
    a list [pre ++ rest] of distinct Players whose host calls succeed. *)
Definition loop_alternates (rest : list ident) : Prop :=
  forall (pre : list ident) (w : World) (fuel : nat),
    _players (node w) = (pre ++ rest)%list ->
    NoDup (pre ++ rest) ->
    (forall q, In q rest -> gateway_of w q = true) ->
    (List.length rest < fuel)%nat ->
    exists w',
      disconnect_loop fuel (List.length pre) w = Some (Return tt, w') /\
      _players (node w') = (pre ++ alternate false rest)%list /\
      voice_calls w' = (voice_calls w ++ leave_calls (alternate true rest))%list /\
      _websocket (node w') = _websocket (node w) /\
      (forall q, In q (alternate true rest) -> _connected (heap w' q) = false) /\
      (forall q, ~ In q (alternate true rest) -> heap w' q = heap w q).

(** A node that was never connected, with one fresh Player. *)
Definition world_unconnected : World :=
  mkWorld (fun _ => Player_init chan_up) (mkNode [] None) [chan_up] 0 [].

(** Five connected Players attached in the order 1..5, all on a guild
    that accepts voice state changes. *)
Definition world_five : World :=
  mkWorld (fun _ => set__connected true (Player_init chan_up))
          (mkNode [1%nat; 2%nat; 3%nat; 4%nat; 5%nat] (Some open_websocket))
          [chan_up] 0 [].

Definition chan_other : VoiceChannel := mkVoiceChannel 30 guild_up.

(** [world_fresh] with a second channel known to the client. *)
Definition world_two_channels : World :=
  mkWorld (fun _ => Player_init chan_up)
          (mkNode [] (Some open_websocket)) [chan_up; chan_other] 0 [].

(** A fresh Player whose guild refuses voice state changes. *)
Definition world_refused : World :=
  mkWorld (fun _ => Player_init chan_down)
          (mkNode [] (Some open_websocket)) [chan_down] 0 [].

Definition player_ref : pyval := PObj "Player" [PInt 0].
Definition track_ref : pyval := PObj "Track" [PStr "QAAAjA=="].

(* ===================================================================== *)
(** ** Basic facts                                                        *)
(* ===================================================================== *)

(** Unfolds one Player method down to the monad. *)
Ltac run_player :=
  unfold Player_stop, Player_seek, Player_addFilter, _updateFilters,
         on_voice_server_update, on_voice_state_update, _sendVoiceUpdate,
         bind, get_player, update_player, lift.

(** Unfolds [getTracks] on a response of status 200. *)
Ltac run_getTracks :=
  unfold getTracks; cbn [Z.eqb Pos.eqb negb].

Lemma heap_upd_same (h : ident -> Player) (self : ident) (p : Player) :
  heap_upd h self p self = p.
Proof. unfold heap_upd. now rewrite Nat.eqb_refl. Qed.

(** In the source, [self.node.send] does not resolve: class [Node]
    binds the sending coroutine to the name [_send] only. *)
Lemma node_send_source (payload : pyval) :
  node_send Node_class payload = raise (AttributeError "Node" "send").
Proof. reflexivity. Qed.

Lemma node_send_with_send (payload : pyval) :
  node_send Node_class_with_send payload = Node__send payload.
Proof. reflexivity. Qed.

Lemma node_players_source :
  node_players Node_class = fun w => (Return (_players (node w)), w).
Proof. reflexivity. Qed.

(** Whatever the namespace, [node.send] leaves every Player as it is. *)
Lemma node_send_heap cls (payload : pyval) (w : World) :
  heap (snd (node_send cls payload w)) = heap w.
Proof.
  unfold node_send.
  destruct (dict_get "send" cls) as [m|]; [|reflexivity].
  destruct m; try reflexivity.
  unfold Node__send. destruct (_websocket (node w)); reflexivity.
Qed.

Lemma Node__send_frames (payload : pyval) (w : World) (ws : Websocket) :
  _websocket (node w) = Some ws ->
  fst (Node__send payload w) = Return tt /\
  frames_sent (snd (Node__send payload w)) = (frames_sent w ++ [payload])%list /\
  heap (snd (Node__send payload w)) = heap w.
Proof.
  intros H. unfold Node__send, frames_sent. rewrite H. simpl. auto.
Qed.

(** The name [datetime] of player.py is the class, not the module:
    line 28 rebinds what line 26 bound. *)
Lemma datetime_is_the_class :
  global_name "datetime" = Return datetime_class.
Proof. reflexivity. Qed.

Lemma datetime_datetime_unresolved :
  obind (global_name "datetime") (fun d => getattr d "datetime")
  = Raise (AttributeError "type object datetime" "datetime").
Proof. reflexivity. Qed.

Lemma datetime_fromtimestamp_resolved :
  obind (global_name "datetime") (fun d => getattr d "fromtimestamp")
  = Return (RAttr datetime_class "fromtimestamp").
Proof. reflexivity. Qed.

(* ===================================================================== *)
(** ** pause / resume                                                     *)
(* ===================================================================== *)

Lemma togglePause_heap cls (self : ident) (flag : bool) (w : World) :
  heap (snd (_togglePause cls self flag w))
  = heap_upd (heap w) self (set__paused (pause_frame (heap w self) flag) (heap w self)).
Proof.
  unfold _togglePause, bind, get_player, update_player. cbn [fst snd].
  match goal with
  | |- context [node_send cls ?payload ?w1] =>
      pose proof (node_send_heap cls payload w1) as H;
      destruct (node_send cls payload w1) as [r w']
  end.
  cbn [snd heap set_heap] in H. destruct r; exact H.
Qed.

(** C1.  After [pause()] and after [resume()] alike, [isPaused] is the
    command dict that [_togglePause] built (line 324 rebinds [pause]
    before line 329 stores it): a non-empty dict, hence true as a truth
    value and equal to neither [True] nor [False].  In particular
    [isPaused] is not false after [resume()].  The assignment does come
    before the send, which then raises in the source. *)
Theorem C1_isPaused_after_resume_is_truthy :
  forall cls (self : ident) (w : World),
    (let w' := snd (Player_resume cls self w) in
     isPaused (heap w' self) = pause_frame (heap w self) false /\
     truthy (isPaused (heap w' self)) = true) /\
    (let w' := snd (Player_pause cls self w) in
     isPaused (heap w' self) = pause_frame (heap w self) true /\
     isPaused (heap w' self) <> PBool true) /\
    fst (Player_resume Node_class self w) = Raise (AttributeError "Node" "send").
Proof.
  intros cls self w. unfold Player_resume, Player_pause.
  repeat split.
  - rewrite togglePause_heap, heap_upd_same. reflexivity.
  - rewrite togglePause_heap, heap_upd_same. reflexivity.
  - rewrite togglePause_heap, heap_upd_same. reflexivity.
  - rewrite togglePause_heap, heap_upd_same. discriminate.
Qed.

(* ===================================================================== *)
(** ** stop                                                               *)
(* ===================================================================== *)

(** With a current track and a resolving [send], [stop] clears the
    track, writes the stop frame and returns. *)
Lemma stop_with_track (self : ident) (w : World) (t : Track) (ws : Websocket) :
  _track (heap w self) = Some t ->
  _websocket (node w) = Some ws ->
  exists w',
    Player_stop Node_class_with_send self w = (Return tt, w') /\
    _track (heap w' self) = None /\
    frames_sent w' = (frames_sent w ++ [stop_frame (heap w self)])%list.
Proof.
  intros Ht Hws.
  run_player. simpl.
  rewrite ?node_send_with_send. unfold Node__send. simpl. rewrite Hws, Ht. simpl.
  eexists. split; [reflexivity|]. simpl. rewrite heap_upd_same.
  unfold frames_sent. simpl. rewrite Hws. auto.
Qed.

(** C3.  [stop()] on a Player without a current track does not
    complete: in the source, [self.node.send] raises before any frame is
    written; and were [send] to resolve, the stop frame is written and
    then the closing [logger.debug] raises on [tempTrack.title], because
    [tempTrack] is [None]. *)
Theorem C3_stop_without_track_raises :
  forall (self : ident) (w : World) (ws : Websocket),
    _track (heap w self) = None ->
    _websocket (node w) = Some ws ->
    (fst (Player_stop Node_class self w) = Raise (AttributeError "Node" "send") /\
     frames_sent (snd (Player_stop Node_class self w)) = frames_sent w) /\
    (fst (Player_stop Node_class_with_send self w)
       = Raise (AttributeError "NoneType" "title") /\
     frames_sent (snd (Player_stop Node_class_with_send self w))
       = (frames_sent w ++ [stop_frame (heap w self)])%list).
Proof.
  intros self w ws Ht Hws. split.
  - run_player. simpl. auto.
  - run_player. simpl.
    rewrite ?node_send_with_send. unfold Node__send. simpl. rewrite Hws, Ht. simpl.
    unfold frames_sent. simpl. rewrite Hws. auto.
Qed.

Lemma C3_witness :
  _track (heap world_fresh 0%nat) = None /\
  _websocket (node world_fresh) = Some open_websocket /\
  (fst (Player_stop Node_class 0%nat world_fresh)
     = Raise (AttributeError "Node" "send") /\
   frames_sent (snd (Player_stop Node_class 0%nat world_fresh)) = []) /\
  (fst (Player_stop Node_class_with_send 0%nat world_fresh)
     = Raise (AttributeError "NoneType" "title") /\
   frames_sent (snd (Player_stop Node_class_with_send 0%nat world_fresh))
     = [PDict [("op", PStr "stop"); ("guildId", PStr "1")]]).
Proof.
  split; [reflexivity|]. split; [reflexivity|].
  exact (@C3_stop_without_track_raises 0%nat world_fresh open_websocket
           eq_refl eq_refl).
Defined.

(* ===================================================================== *)
(** ** seek                                                               *)
(* ===================================================================== *)

(** A position beyond the track's length is rejected before
    [self.node.send] is even looked up: nothing changes. *)
Lemma seek_beyond_length cls (self : ident) (w : World) (t : Track) (pos : Z) :
  _track (heap w self) = Some t ->
  Qle_bool (inject_Z pos) (track_length t) = false ->
  Player_seek cls self pos w = (Raise InvalidIdentifier, w).
Proof.
  intros Ht Hpos.
  run_player. rewrite Ht. simpl.
  rewrite Hpos. reflexivity.
Qed.

(** Were [send] to resolve, a position within the length writes exactly
    one seek frame carrying it. *)
Lemma seek_within_length_with_send
      (self : ident) (w : World) (t : Track) (pos : Z) (ws : Websocket) :
  _track (heap w self) = Some t ->
  Qle_bool (inject_Z pos) (track_length t) = true ->
  _websocket (node w) = Some ws ->
  exists w',
    Player_seek Node_class_with_send self pos w = (Return tt, w') /\
    frames_sent w' = (frames_sent w ++ [seek_frame (heap w self) pos])%list /\
    heap w' = heap w.
Proof.
  intros Ht Hpos Hws.
  run_player. rewrite Ht. simpl.
  rewrite Hpos. simpl. rewrite ?node_send_with_send.
  destruct (Node__send_frames (seek_frame (heap w self) pos) w Hws) as (Hr & Hf & Hh).
  destruct (Node__send (seek_frame (heap w self) pos) w) as [r w'] eqn:E.
  simpl in Hr, Hf, Hh. subst r. unfold seek_frame in E.
  exists w'. rewrite E. auto.
Qed.

(** C5.  With a current track and a position within its length, [seek]
    reaches [await self.node.send(seek)], where the attribute lookup
    fails: the call raises AttributeError and no frame is written (the
    world is as before the call). *)
Theorem C5_seek_within_length_sends_nothing :
  forall (self : ident) (w : World) (t : Track) (pos : Z),
    _track (heap w self) = Some t ->
    Qle_bool (inject_Z pos) (track_length t) = true ->
    Player_seek Node_class self pos w = (Raise (AttributeError "Node" "send"), w).
Proof.
  intros self w t pos Ht Hpos.
  run_player. rewrite Ht. simpl.
  rewrite Hpos. reflexivity.
Qed.

Lemma C5_witness :
  _track (heap (world_playing track60) 0%nat) = Some track60 /\
  Qle_bool (inject_Z 5) (track_length track60) = true /\
  Player_seek Node_class 0%nat 5 (world_playing track60)
    = (Raise (AttributeError "Node" "send"), world_playing track60).
Proof.
  split; [reflexivity|]. split; [reflexivity|].
  exact (@C5_seek_within_length_sends_nothing 0%nat (world_playing track60)
           track60 5 eq_refl eq_refl).
Defined.

(* ===================================================================== *)
(** ** addFilter                                                          *)
(* ===================================================================== *)

(** A name that is already applied is rejected; nothing changes. *)
Lemma addFilter_existing cls (self : ident) (w : World) (f : LavapyFilter) :
  str_mem (filter_name f) (dict_keys (_filters (heap w self))) = true ->
  Player_addFilter cls self f w = (Raise FilterAlreadyExists, w).
Proof.
  intros H. run_player. simpl. rewrite H. reflexivity.
Qed.

(** Were [send] to resolve, a fresh name is inserted and exactly one
    frame is written, built from the whole filter map after insertion
    and the volume over 100. *)
Lemma addFilter_fresh_with_send
      (self : ident) (w : World) (f : LavapyFilter) (ws : Websocket) :
  str_mem (filter_name f) (dict_keys (_filters (heap w self))) = false ->
  _websocket (node w) = Some ws ->
  exists w',
    Player_addFilter Node_class_with_send self f w = (Return tt, w') /\
    _filters (heap w' self) = dict_set (filter_name f) f (_filters (heap w self)) /\
    frames_sent w' = (frames_sent w ++ [filters_frame (heap w' self)])%list.
Proof.
  intros H Hws.
  run_player. simpl.
  rewrite H. simpl. rewrite ?node_send_with_send.
  unfold Node__send. simpl. rewrite Hws.
  eexists. split; [reflexivity|]. simpl. rewrite heap_upd_same. simpl.
  split; [reflexivity|].
  unfold frames_sent, filters_frame. simpl. rewrite Hws. reflexivity.
Qed.

(** C6.  With a fresh name, [addFilter] inserts the filter and then
    fails in [_updateFilters] at [self.node.send]: AttributeError, no
    frame written, and the filter stays in the map. *)
Theorem C6_addFilter_fresh_sends_nothing :
  forall (self : ident) (w : World) (f : LavapyFilter),
    str_mem (filter_name f) (dict_keys (_filters (heap w self))) = false ->
    let r := Player_addFilter Node_class self f w in
    fst r = Raise (AttributeError "Node" "send") /\
    frames_sent (snd r) = frames_sent w /\
    _filters (heap (snd r) self)
      = dict_set (filter_name f) f (_filters (heap w self)).
Proof.
  intros self w f H.
  run_player. simpl.
  rewrite H. simpl. rewrite ?node_send_source. simpl.
  rewrite heap_upd_same. auto.
Qed.

Lemma C6_witness :
  str_mem (filter_name sample_filter)
          (dict_keys (_filters (heap world_fresh 0%nat))) = false /\
  let r := Player_addFilter Node_class 0%nat sample_filter world_fresh in
  fst r = Raise (AttributeError "Node" "send") /\
  frames_sent (snd r) = [] /\
  _filters (heap (snd r) 0%nat) = [("karaoke", sample_filter)].
Proof.
  split; [reflexivity|].
  exact (@C6_addFilter_fresh_sends_nothing 0%nat world_fresh sample_filter eq_refl).
Defined.

(* ===================================================================== *)
(** ** Voice handshake                                                    *)
(* ===================================================================== *)

Lemma str_mem_dict_set (V : Type) (k k' : string) (v : V) (d : list (string * V)) :
  str_mem k (dict_keys (dict_set k' v d))
  = (String.eqb k k' || str_mem k (dict_keys d))%bool.
Proof.
  unfold str_mem, dict_keys.
  induction d as [|[a x] d IH]; simpl.
  - reflexivity.
  - destruct (String.eqb k' a) eqn:E; simpl.
    + apply String.eqb_eq in E. subst a.
      destruct (String.eqb k k'); reflexivity.
    + rewrite IH. destruct (String.eqb k a), (String.eqb k k'); reflexivity.
Qed.

Lemma dict_mem_keys (V : Type) (k : string) (d : list (string * V)) :
  dict_mem k d = str_mem k (dict_keys d).
Proof.
  unfold dict_mem, str_mem, dict_keys.
  induction d as [|[a x] d IH]; simpl; [reflexivity|].
  destruct (String.eqb k a); [reflexivity | exact IH].
Qed.

Lemma set_eqb_missing (a : string) (l1 l2 : list string) :
  str_mem a l2 = false -> set_eqb (a :: l1) l2 = false.
Proof. intros H. unfold set_eqb. simpl. rewrite H. reflexivity. Qed.

Lemma set_eqb_missing2 (a b : string) (l1 l2 : list string) :
  str_mem b l2 = false -> set_eqb (a :: b :: l1) l2 = false.
Proof.
  intros H. unfold set_eqb. simpl. rewrite H.
  rewrite Bool.andb_false_r. reflexivity.
Qed.

(** While the session slot is empty, a server update sends nothing and
    returns, whatever [send] resolves to. *)
Lemma server_update_alone cls (self : ident) (w : World) (ev : pyval) :
  dict_mem "sessionId" (_voiceState (heap w self)) = false ->
  exists w',
    on_voice_server_update cls self ev w = (Return tt, w') /\
    node w' = node w.
Proof.
  intros Hk.
  run_player.
  cbn [fst snd heap set_heap]. rewrite heap_upd_same.
  cbn [_voiceState set__voiceState].
  rewrite set_eqb_missing.
  - eexists. split; reflexivity.
  - rewrite str_mem_dict_set, <- dict_mem_keys, Hk. reflexivity.
Qed.

(** While the event slot is empty, a state update for a channel the
    client resolves sends nothing and returns. *)
Lemma state_update_alone cls (self : ident) (w : World)
      (d : list (string * pyval)) (sid : pyval) (cid : Z) (c : VoiceChannel) :
  dict_mem "event" (_voiceState (heap w self)) = false ->
  dict_get "session_id" d = Some sid ->
  dict_get "channel_id" d = Some (PInt cid) ->
  get_channel w (PInt cid) = Some c ->
  exists w',
    on_voice_state_update cls self (PDict d) w = (Return tt, w') /\
    node w' = node w.
Proof.
  intros Hk Hs Hc Hg.
  assert (Hset : forall p : Player,
             _voiceState p = dict_set "sessionId" sid (_voiceState (heap w self)) ->
             set_eqb ["sessionId"; "event"] (dict_keys (_voiceState p)) = false).
  { intros p Hp. apply set_eqb_missing2.
    rewrite Hp, str_mem_dict_set, <- dict_mem_keys, Hk. reflexivity. }
  run_player.
  cbn [py_subscript]. rewrite Hs, Hc. cbn [is_None fst snd heap set_heap].
  cbn [get_channel client_channels] in *. rewrite heap_upd_same.
  change (client_channels (set_heap _ w)) with (client_channels w).
  cbn [get_channel] in Hg. rewrite Hg.
  destruct (channel_neq (Some c) _).
  - cbn [fst snd heap set_heap]. rewrite !heap_upd_same.
    rewrite Hset by reflexivity.
    eexists. split; reflexivity.
  - cbn [ret fst snd heap set_heap]. rewrite !heap_upd_same.
    rewrite Hset by reflexivity.
    eexists. split; reflexivity.
Qed.

(** A state update with a null target channel clears the buffer and
    sends nothing. *)
Lemma state_update_null_channel cls (self : ident) (w : World)
      (d : list (string * pyval)) (sid : pyval) :
  dict_get "session_id" d = Some sid ->
  dict_get "channel_id" d = Some PNone ->
  exists w',
    on_voice_state_update cls self (PDict d) w = (Return tt, w') /\
    _voiceState (heap w' self) = [] /\
    node w' = node w.
Proof.
  intros Hs Hc.
  run_player. simpl.
  rewrite Hs. simpl. rewrite Hc. simpl.
  eexists. split; [reflexivity|]. simpl. rewrite heap_upd_same. auto.
Qed.

(** Were [send] to resolve, the server update that completes the pair
    writes exactly one voiceUpdate frame with both slots. *)
Lemma server_update_completes_with_send
      (self : ident) (w : World) (sid ev : pyval) (ws : Websocket) :
  _voiceState (heap w self) = [("sessionId", sid)] ->
  _websocket (node w) = Some ws ->
  exists w',
    on_voice_server_update Node_class_with_send self ev w = (Return tt, w') /\
    frames_sent w'
      = (frames_sent w ++ [voiceUpdate_frame (heap w self) sid ev])%list /\
    _voiceState (heap w' self) = [("sessionId", sid); ("event", ev)].
Proof.
  intros Hv Hws.
  run_player.
  simpl. rewrite heap_upd_same. rewrite Hv. simpl.
  rewrite ?node_send_with_send. unfold Node__send. simpl. rewrite Hws.
  eexists. split; [reflexivity|]. simpl. rewrite heap_upd_same. simpl.
  unfold frames_sent. simpl. rewrite Hws. auto.
Qed.

(** C4.  The server update that completes a (sessionId, event) pair
    fills the second slot and then fails at [self.node.send]: the call
    raises AttributeError and no voiceUpdate frame is written for the
    completed pair. *)
Theorem C4_completed_pair_sends_no_frame :
  forall (self : ident) (w : World) (sid ev : pyval),
    _voiceState (heap w self) = [("sessionId", sid)] ->
    let r := on_voice_server_update Node_class self ev w in
    fst r = Raise (AttributeError "Node" "send") /\
    frames_sent (snd r) = frames_sent w /\
    _voiceState (heap (snd r) self) = [("sessionId", sid); ("event", ev)].
Proof.
  intros self w sid ev Hv.
  run_player.
  simpl. rewrite heap_upd_same. rewrite Hv. simpl.
  rewrite ?node_send_source. simpl. rewrite heap_upd_same. auto.
Qed.

Lemma C4_witness :
  let w := snd (on_voice_state_update Node_class 0%nat
                  (PDict [("session_id", PStr "s1"); ("channel_id", PInt 10)])
                  world_fresh) in
  _voiceState (heap w 0%nat) = [("sessionId", PStr "s1")] /\
  let r := on_voice_server_update Node_class 0%nat (PStr "ev") w in
  fst r = Raise (AttributeError "Node" "send") /\
  frames_sent (snd r) = frames_sent w /\
  _voiceState (heap (snd r) 0%nat) = [("sessionId", PStr "s1"); ("event", PStr "ev")].
Proof.
  split; [reflexivity|].
  exact (@C4_completed_pair_sends_no_frame 0%nat
           (snd (on_voice_state_update Node_class 0%nat
                   (PDict [("session_id", PStr "s1"); ("channel_id", PInt 10)])
                   world_fresh))
           (PStr "s1") (PStr "ev") eq_refl).
Defined.

(* ===================================================================== *)
(** ** position                                                           *)
(* ===================================================================== *)

Lemma round_half_even_whole (q : Q) (z : Z) :
  (q == inject_Z z)%Q -> round_half_even q = z.
Proof.
  intros H. unfold round_half_even.
  assert (Hf : Qfloor q = z) by (rewrite H; apply Qfloor_Z).
  rewrite Hf.
  assert (Hlt : (q - inject_Z z < 1 # 2)%Q).
  { rewrite H. unfold Qminus. rewrite Qplus_opp_r. reflexivity. }
  assert (Hc : Qcompare (q - inject_Z z) (1 # 2) = Lt)
    by (apply Qlt_alt; exact Hlt).
  rewrite Hc. reflexivity.
Qed.

Lemma ms_to_us (time : Z) :
  (inject_Z time / inject_Z 1000 * 1000000 == inject_Z (time * 1000))%Q.
Proof. unfold Qeq. cbn. lia. Qed.

(** A time in milliseconds within the years 1 to 9999 converts to the
    datetime of that many seconds over 1000. *)
Lemma call_fromtimestamp_ms (time : Z) :
  - 62135596800000 <= time <= 253402300799999 ->
  call_fromtimestamp (RAttr datetime_class "fromtimestamp")
                     (inject_Z time / inject_Z 1000)
  = Return (inject_Z time / inject_Z 1000)%Q.
Proof.
  intros Hr. unfold call_fromtimestamp.
  change (pyref_eqb (RAttr datetime_class "fromtimestamp")
                    (RAttr datetime_class "fromtimestamp")) with true.
  cbv beta iota zeta.
  rewrite (@round_half_even_whole _ _ (ms_to_us time)).
  assert (Hlo : - 62135596800 <= time * 1000 / 1000000)
    by (apply Z.div_le_lower_bound; lia).
  assert (Hhi : time * 1000 / 1000000 < 253402300800)
    by (apply Z.div_lt_upper_bound; lia).
  repeat match goal with
         | |- context [?a <? ?b] =>
             destruct (Z.ltb_spec a b); [lia|]
         end.
  cbn [orb].
  assert (E : Qeq_bool (inject_Z (time * 1000))
                       (inject_Z time / inject_Z 1000 * 1000000) = true).
  { apply Qeq_bool_iff. symmetry. apply ms_to_us. }
  rewrite E. reflexivity.
Qed.

(** [_updateState] resolves [datetime.fromtimestamp] and stores the
    snapshot of a well-formed state-sync frame, in seconds. *)
Lemma updateState_stores_snapshot
      (self : ident) (w : World) (d st : list (string * pyval)) (time pos : Z) :
  - 62135596800000 <= time <= 253402300799999 ->
  dict_get "state" d = Some (PDict st) ->
  dict_get "time" st = Some (PInt time) ->
  dict_get "position" st = Some (PInt pos) ->
  exists w',
    _updateState self (PDict d) w = (Return tt, w') /\
    _lastUpdateTime (heap w' self) = Some (inject_Z time / inject_Z 1000)%Q /\
    _lastPosition (heap w' self) = Some (inject_Z pos / inject_Z 1000)%Q /\
    _track (heap w' self) = _track (heap w self) /\
    _connected (heap w' self) = _connected (heap w self) /\
    _paused (heap w' self) = _paused (heap w self).
Proof.
  intros Hr Hd Ht Hp.
  unfold _updateState, bind, lift, update_player.
  cbn [py_get]. rewrite Hd. cbn [py_get]. rewrite Ht, Hp.
  rewrite datetime_fromtimestamp_resolved.
  change (obind (global_name "timezone") (fun tz => getattr tz "utc"))
    with (Return (RAttr timezone_class "utc")).
  cbn [py_truediv]. rewrite (@call_fromtimestamp_ms _ Hr).
  eexists. split; [reflexivity|].
  cbn [heap set_heap]. rewrite !heap_upd_same. repeat split.
Qed.

(** Not playing: [position] is the int 0. *)
Lemma position_not_playing (now : Q) (p : Player) :
  isPlaying p = false -> position now p = Return (PInt 0).
Proof. intros H. unfold position. rewrite H. reflexivity. Qed.

(** Playing, paused (any true value), snapshot present: the stored
    position, capped by the track's length. *)
Lemma position_paused (now : Q) (p : Player) (t : Track) (x : Q) :
  _connected p = true ->
  _track p = Some t ->
  truthy (isPaused p) = true ->
  _lastPosition p = Some x ->
  position now p = Return (PFloat (Qmin2 x (track_length t))).
Proof.
  intros Hc Ht Hp Hx. unfold position, isPlaying, isConnected.
  rewrite Hc, Ht, Hp, Hx. reflexivity.
Qed.

(** Playing and not paused: the read stops at the first attribute
    lookup of the branch. *)
Lemma position_unpaused (now : Q) (p : Player) :
  isPlaying p = true ->
  truthy (isPaused p) = false ->
  position now p = Raise (AttributeError "type object datetime" "datetime").
Proof.
  intros Hplay Hpause. unfold position. rewrite Hplay, Hpause. reflexivity.
Qed.

(** C7.  Reading [position] while playing and not paused does not
    return [min(pos0 + elapsed, track.length)]: the branch starts by
    evaluating [datetime.datetime.now], and the global [datetime] of
    player.py is the class (line 28 rebinds the module imported on
    line 26), which has no attribute [datetime]; the read raises
    AttributeError whatever the snapshot. *)
Theorem C7_position_unpaused_raises :
  forall (now : Q) (p : Player),
    isPlaying p = true ->
    truthy (isPaused p) = false ->
    position now p = Raise (AttributeError "type object datetime" "datetime").
Proof.
  intros now p Hplay Hpause. now apply position_unpaused.
Qed.

Lemma C7_witness :
  let w := world_synced track60 in
  let p := heap w 0%nat in
  (_lastUpdateTime p = Some (inject_Z 1000000 / inject_Z 1000)%Q /\
   _lastPosition p = Some (inject_Z 10000 / inject_Z 1000)%Q /\
   clock w = 1005%Q) /\
  isPlaying p = true /\
  truthy (isPaused p) = false /\
  position (clock w) p = Raise (AttributeError "type object datetime" "datetime").
Proof.
  split; [repeat split|]. split; [reflexivity|]. split; [reflexivity|].
  exact (@C7_position_unpaused_raises (clock (world_synced track60))
           (heap (world_synced track60) 0%nat) eq_refl eq_refl).
Defined.

(** C9.  [position] is the int 0 for a Player that is not playing, and
    it raises for a playing Player that has no snapshot yet; but a
    snapshot does not make the read safe: playing, not paused, with
    both snapshot fields set, it still raises (at
    [datetime.datetime.now], before the snapshot is read). *)
Theorem C9_position_raises_with_snapshot :
  forall (now : Q) (p : Player),
    (isPlaying p = false -> position now p = Return (PInt 0)) /\
    (isPlaying p = true -> _lastUpdateTime p = None -> _lastPosition p = None ->
     exists e, position now p = Raise e) /\
    (forall (t0 x : Q),
       isPlaying p = true -> _lastUpdateTime p = Some t0 -> _lastPosition p = Some x ->
       truthy (isPaused p) = false ->
       exists e, position now p = Raise e).
Proof.
  intros now p. split; [apply position_not_playing|]. split.
  - intros Hplay _ Hpos. unfold position. rewrite Hplay. cbn [negb].
    destruct (truthy (isPaused p)).
    + unfold isPlaying in Hplay. destruct (_track p) as [t|].
      * cbn. rewrite Hpos. eexists. reflexivity.
      * rewrite Bool.andb_false_r in Hplay. discriminate.
    + eexists. reflexivity.
  - intros t0 x Hplay _ _ Hpause. eexists.
    apply position_unpaused; assumption.
Qed.

Lemma C9_witness :
  (let p := heap world_fresh 0%nat in
   isPlaying p = false /\ position 0 p = Return (PInt 0)) /\
  (let p := heap (world_playing track60) 0%nat in
   isPlaying p = true /\ _lastUpdateTime p = None /\ _lastPosition p = None /\
   exists e, position 0 p = Raise e) /\
  (let p := heap (world_synced track60) 0%nat in
   isPlaying p = true /\
   _lastUpdateTime p = Some (inject_Z 1000000 / inject_Z 1000)%Q /\
   _lastPosition p = Some (inject_Z 10000 / inject_Z 1000)%Q /\
   truthy (isPaused p) = false /\
   exists e, position 1005 p = Raise e).
Proof.
  split; [|split].
  - split; [reflexivity|].
    exact (proj1 (C9_position_raises_with_snapshot 0
                    (heap world_fresh 0%nat)) eq_refl).
  - split; [reflexivity|]. split; [reflexivity|]. split; [reflexivity|].
    exact (proj1 (proj2 (C9_position_raises_with_snapshot 0
                           (heap (world_playing track60) 0%nat)))
             eq_refl eq_refl eq_refl).
  - split; [reflexivity|]. split; [reflexivity|]. split; [reflexivity|].
    split; [reflexivity|].
    exact (proj2 (proj2 (C9_position_raises_with_snapshot 1005
                           (heap (world_synced track60) 0%nat)))
             _ _ eq_refl eq_refl eq_refl eq_refl).
Defined.

(* ===================================================================== *)
(** ** Node.disconnect                                                    *)
(* ===================================================================== *)

Lemma list_remove_In (p : ident) (l : list ident) :
  In p l ->
  exists l', list_remove p l = Some l' /\ Permutation l (p :: l') /\
             List.length l = S (List.length l').
Proof.
  induction l as [|y t IH]; intros Hin; [contradiction|].
  simpl. destruct (Nat.eqb p y) eqn:E.
  - apply Nat.eqb_eq in E. subst y. exists t. repeat split. apply Permutation_refl.
  - destruct Hin as [Hy|Hin].
    + subst y. rewrite Nat.eqb_refl in E. discriminate.
    + destruct (IH Hin) as (t' & Hr & Hp & Hl). rewrite Hr.
      exists (y :: t'). repeat split.
      * apply Permutation_trans with (y :: p :: t').
        -- now apply perm_skip.
        -- apply perm_swap.
      * simpl. now rewrite Hl.
Qed.

(** [Player.disconnect] when the host call is refused: it raises there;
    the Player stays attached and connected. *)
Lemma Player_disconnect_refused (p : ident) (w : World) :
  gateway_of w p = false ->
  Player_disconnect Node_class p w
  = (Raise HostError, set_voice_calls (voice_calls w ++ [(p, None)]) w).
Proof.
  intros Hg. unfold Player_disconnect, bind, change_voice_state.
  unfold gateway_of in Hg. rewrite Hg. reflexivity.
Qed.

(** [Player.disconnect] when the host call goes through and the Player
    is in the list: one occurrence is removed and the Player is marked
    disconnected. *)
Lemma Player_disconnect_done (p : ident) (w : World) (l' : list ident) :
  gateway_of w p = true ->
  list_remove p (_players (node w)) = Some l' ->
  Player_disconnect Node_class p w
  = (Return tt,
     set_heap (heap_upd (heap w) p (set__connected false (heap w p)))
       (set_node (mkNode l' (_websocket (node w)))
          (set_voice_calls (voice_calls w ++ [(p, None)]) w))).
Proof.
  intros Hg Hr. unfold Player_disconnect, bind, change_voice_state.
  unfold gateway_of in Hg. rewrite Hg.
  rewrite node_players_source. cbn [node set_voice_calls]. rewrite Hr.
  reflexivity.
Qed.

Lemma fanout_post_step (w w1 w' : World) (p : ident) (l' : list ident)
      (r : outcome unit) (calls : list ident) :
  gateway_of w p = true ->
  Permutation (_players (node w)) (p :: l') ->
  w1 = set_heap (heap_upd (heap w) p (set__connected false (heap w p)))
         (set_node (mkNode l' (_websocket (node w)))
            (set_voice_calls (voice_calls w ++ [(p, None)]) w)) ->
  fanout_post w1 r w' calls ->
  fanout_post w r w' (p :: calls).
Proof.
  intros Hg Hperm Hw1 (Hcalls & Hch & Hconn & Hr). subst w1.
  assert (Hch1 : forall q, channel (heap w' q) = channel (heap w q)).
  { intros q. rewrite Hch. cbn [heap set_heap]. unfold heap_upd.
    destruct (Nat.eqb q p) eqn:E; [|reflexivity].
    apply Nat.eqb_eq in E. subst q. reflexivity. }
  assert (Hgw : forall q, gateway_of w q
                          = gateway_ok (channel_guild (channel (heap w' q)))).
  { intros q. unfold gateway_of. now rewrite Hch1. }
  assert (Hp : _connected (heap w' p) = false).
  { apply Hconn. cbn [heap set_heap]. now rewrite heap_upd_same. }
  assert (Hg1 : forall q,
             gateway_of
               (set_heap (heap_upd (heap w) p (set__connected false (heap w p)))
                  (set_node (mkNode l' (_websocket (node w)))
                     (set_voice_calls (voice_calls w ++ [(p, None)]) w))) q
             = gateway_of w q).
  { intros q. rewrite Hgw. unfold gateway_of. now rewrite Hch. }
  unfold fanout_post. split; [|split; [|split]].
  - rewrite Hcalls. cbn [voice_calls set_heap set_node set_voice_calls].
    unfold leave_calls. simpl. now rewrite <- app_assoc.
  - exact Hch1.
  - intros q Hq. apply Hconn. cbn [heap set_heap]. unfold heap_upd.
    destruct (Nat.eqb q p); [reflexivity | exact Hq].
  - destruct r as [u|e].
    + destruct Hr as (Hall & Hpm). split.
      * constructor; [now split|].
        eapply Forall_impl; [|exact Hall].
        intros q (Hq1 & Hq2). rewrite Hg1 in Hq1. now split.
      * cbn [node set_heap set_node _players] in Hpm.
        apply Permutation_trans with (p :: l'); [exact Hperm|].
        simpl. now apply perm_skip.
    + destruct Hr as (He & done & p' & Hc & Hgp & Hin & Hall & Hpm).
      split; [exact He|].
      exists (p :: done), p'. repeat split.
      * now rewrite Hc.
      * now rewrite Hg1 in Hgp.
      * exact Hin.
      * constructor; [now split|].
        eapply Forall_impl; [|exact Hall].
        intros q (Hq1 & Hq2). rewrite Hg1 in Hq1. now split.
      * cbn [node set_heap set_node _players] in Hpm.
        apply Permutation_trans with (p :: l'); [exact Hperm|].
        simpl. now apply perm_skip.
Qed.

(** The loop ends within [fuel] iterations as soon as [fuel] exceeds the
    part of the list beyond the index, and keeps the websocket. *)
Lemma disconnect_loop_spec (fuel : nat) :
  forall (i : nat) (w : World),
    (List.length (_players (node w)) - i < fuel)%nat ->
    exists r w' calls,
      disconnect_loop fuel i w = Some (r, w') /\
      _websocket (node w') = _websocket (node w) /\
      fanout_post w r w' calls.
Proof.
  induction fuel as [|fuel IH]; intros i w Hfuel; [lia|].
  cbn [disconnect_loop].
  destruct (nth_error (_players (node w)) i) as [p|] eqn:Hnth.
  - assert (Hin : In p (_players (node w))) by (eapply nth_error_In; eauto).
    assert (Hi : (i < List.length (_players (node w)))%nat)
      by (apply nth_error_Some; congruence).
    destruct (gateway_of w p) eqn:Hg.
    + destruct (list_remove_In p _ Hin) as (l' & Hrem & Hperm & Hlen).
      rewrite (Player_disconnect_done p w Hg Hrem).
      match goal with |- context [disconnect_loop fuel (S i) ?w1] =>
        destruct (IH (S i) w1) as (r & w' & calls & Hrun & Hws & Hpost)
      end.
      { cbn [node set_heap set_node _players]. lia. }
      exists r, w', (p :: calls). split; [exact Hrun|]. split.
      * rewrite Hws. reflexivity.
      * eapply fanout_post_step; eauto.
    + rewrite (Player_disconnect_refused p w Hg).
      exists (Raise HostError), (set_voice_calls (voice_calls w ++ [(p, None)]) w), [p].
      split; [reflexivity|]. split; [reflexivity|].
      unfold fanout_post. split; [reflexivity|]. split; [reflexivity|].
      split; [auto|]. split; [reflexivity|].
      exists [], p. repeat split; auto.
  - exists (Return tt), w, []. split; [reflexivity|]. split; [reflexivity|].
    unfold fanout_post. split.
    + unfold leave_calls. simpl. now rewrite app_nil_r.
    + repeat split; auto.
Qed.

(** [Node.disconnect] never runs out of the iterations it is given. *)
Lemma Node_disconnect_total (w : World) :
  exists r w', Node_disconnect w = Some (r, w').
Proof.
  unfold Node_disconnect.
  destruct (@disconnect_loop_spec (S (List.length (_players (node w)))) 0%nat w)
    as (r & w' & calls & Hrun & _ & _); [lia|].
  rewrite Hrun. destruct r as [u|e]; [|eauto].
  destruct (close_websocket w') as [r2 w2]. eauto.
Qed.







(** The list iterator and the removals.  With Players 1 and 2 attached
    and no failing call, the first iteration removes Player 1, so the
    list is [[2]] when the iterator asks for index 1: the loop ends,
    Player 2's disconnect is never called and Player 2 stays attached. *)
Lemma Node_disconnect_two_players :
  exists w',
    Node_disconnect world_two_up = Some (Return tt, w') /\
    voice_calls w' = [(1%nat, None)] /\
    _players (node w') = [2%nat] /\
    _connected (heap w' 1%nat) = false /\
    _connected (heap w' 2%nat) = true /\
    _websocket (node w') = Some (mkWebsocket true true []).
Proof.
  eexists. split; [reflexivity|]. repeat split.
Qed.

(* ===================================================================== *)
(** ** Node.getTracks                                                     *)
(* ===================================================================== *)

Lemma entry_fields_subscript (e t i : pyval) :
  entry_fields e = Some (t, i) ->
  py_subscript e (PStr "track") = Return t /\
  py_subscript e (PStr "info") = Return i.
Proof.
  unfold entry_fields. destruct e; try discriminate.
  cbn [py_subscript].
  destruct (dict_get "track" d) as [t'|]; [|discriminate].
  destruct (dict_get "info" d) as [i'|]; [|discriminate].
  intros H. injection H as -> ->. auto.
Qed.

(** The comprehension of the SEARCH_RESULT branch keeps the order of
    the entries. *)
Lemma search_comprehension (c : string) (elems : list pyval) :
  forall tis : list (pyval * pyval),
    map entry_fields elems = map Some tis ->
    mapM (fun element =>
            obind (py_subscript element (PStr "track")) (fun t =>
            obind (py_subscript element (PStr "info")) (fun i =>
            Return (construct c t i))))
         elems
    = Return (map (construct_pair c) tis).
Proof.
  induction elems as [|e elems IH]; intros [|[t i] tis] H; try discriminate.
  - reflexivity.
  - simpl in H. injection H as He Hrest.
    destruct (entry_fields_subscript e He) as (Ht & Hi).
    cbn [mapM]. rewrite Ht, Hi. cbn [obind]. rewrite (IH tis Hrest). reflexivity.
Qed.

(** The comprehension of the PLAYLIST_LOADED branch, for a class that
    has [_trackCls]. *)
Lemma playlist_comprehension (cls : PyClass) (tc : string) (elems : list pyval) :
  cls__trackCls cls = Some tc ->
  forall tis : list (pyval * pyval),
    map entry_fields elems = map Some tis ->
    mapM (fun track =>
            obind (trackCls_of cls) (fun tc' =>
            obind (py_subscript track (PStr "track")) (fun t =>
            obind (py_subscript track (PStr "info")) (fun i =>
            Return (construct tc' t i)))))
         elems
    = Return (map (construct_pair tc) tis).
Proof.
  intros Htc.
  induction elems as [|e elems IH]; intros [|[t i] tis] H; try discriminate.
  - reflexivity.
  - simpl in H. injection H as He Hrest.
    destruct (entry_fields_subscript e He) as (Ht & Hi).
    cbn [mapM]. unfold trackCls_of at 1. rewrite Htc. cbn [obind].
    rewrite Ht, Hi. cbn [obind]. rewrite (IH tis Hrest). reflexivity.
Qed.

Lemma content_level_obind (A B : Type) (o : outcome A) (k : A -> outcome B) :
  content_level o -> (forall a, content_level (k a)) -> content_level (obind o k).
Proof.
  intros Ho Hk. destruct o as [a|e]; cbn [obind].
  - apply Hk.
  - intros H. apply Ho. injection H as ->. reflexivity.
Qed.

Lemma content_level_Return (A : Type) (a : A) : content_level (Return a).
Proof. discriminate. Qed.

Lemma content_level_subscript (v k : pyval) : content_level (py_subscript v k).
Proof.
  unfold content_level, py_subscript.
  destruct v; destruct k; try discriminate;
    match goal with |- context [match ?x with _ => _ end] => destruct x end;
    discriminate.
Qed.

Lemma content_level_get (v : pyval) (k : string) (dflt : pyval) :
  content_level (py_get v k dflt).
Proof. unfold content_level, py_get. destruct v; discriminate. Qed.

Lemma content_level_iter (v : pyval) : content_level (py_iter v).
Proof. unfold content_level, py_iter. destruct v; discriminate. Qed.

Lemma content_level_trackCls (cls : PyClass) : content_level (trackCls_of cls).
Proof. unfold content_level, trackCls_of. destruct (cls__trackCls cls); discriminate. Qed.

Lemma content_level_mapM (A B : Type) (f : A -> outcome B) (l : list A) :
  (forall x, content_level (f x)) -> content_level (mapM f l).
Proof.
  intros Hf. induction l as [|x l IH]; cbn [mapM]; [discriminate|].
  specialize (Hf x). destruct (f x) as [y|e].
  - destruct (mapM f l) as [ys|e].
    + discriminate.
    + intros H. apply IH. injection H as ->. reflexivity.
  - intros H. apply Hf. injection H as ->. reflexivity.
Qed.

Lemma getTracks_200_content_level (cls : PyClass) (data : pyval) :
  content_level (getTracks cls 200 data).
Proof.
  run_getTracks.
  apply content_level_obind; [apply content_level_get|].
  intros lt.
  repeat match goal with
         | |- content_level (if ?b then _ else _) => destruct b
         end;
    try discriminate;
    repeat first
      [ apply content_level_Return
      | apply content_level_subscript
      | apply content_level_iter
      | apply content_level_trackCls
      | apply content_level_mapM; intros
      | apply content_level_obind; [|intros] ].
Qed.

Lemma loadType_of_get (d : list (string * pyval)) :
  py_get (PDict d) "loadType" PNone = Return (loadType_of d).
Proof. reflexivity. Qed.

Lemma Node_getTracks_decoded (cls : PyClass) (req : ClientResponse) (data : pyval) :
  resp_json req = Return data ->
  Node_getTracks cls req = getTracks cls (resp_status req) data.
Proof.
  intros H. unfold Node_getTracks, _getData. rewrite H. reflexivity.
Qed.

(** C8 (as amended).  [Node.getTracks] decodes the body before it looks
    at the status, so a response whose body does not decode raises what
    the decoder raised, whatever the status.  On a response whose body
    decodes: any status other than 200 raises LavalinkException,
    whatever the body, and no response of status 200 raises it.  On a
    response of status 200 whose body decodes to the object [d]:
    NO_MATCHES gives [None]; LOAD_FAILED raises LoadTrackError with the
    body; TRACK_LOADED, when [tracks] has a first entry with [track]
    and [info], gives one instance of [cls] built from that entry;
    SEARCH_RESULT, when every entry of [tracks] has [track] and [info],
    gives the list of instances of [cls], one per entry and in the
    order of the entries; PLAYLIST_LOADED, when [playlistInfo] has a
    [name], every entry of [tracks] has [track] and [info] and [cls]
    has a [_trackCls], gives one instance of [cls] built from the
    playlist name and the list of instances of [cls._trackCls], in the
    order of the entries. *)
Theorem C8_getTracks_outcomes :
  forall (cls : PyClass) (req : ClientResponse),
    (forall e : exn,
        resp_json req = Raise e -> Node_getTracks cls req = Raise e) /\
    (forall data : pyval,
        resp_json req = Return data ->
        (resp_status req <> 200 -> Node_getTracks cls req = Raise LavalinkException) /\
        (resp_status req = 200 -> Node_getTracks cls req <> Raise LavalinkException)) /\
    (forall d : list (string * pyval),
        resp_json req = Return (PDict d) ->
        resp_status req = 200 ->
        (loadType_of d = PStr "NO_MATCHES" ->
         Node_getTracks cls req = Return PNone) /\
        (loadType_of d = PStr "LOAD_FAILED" ->
         Node_getTracks cls req = Raise (LoadTrackError (PDict d))) /\
        (forall (e : pyval) (rest : list pyval) (t i : pyval),
            loadType_of d = PStr "TRACK_LOADED" ->
            dict_get "tracks" d = Some (PList (e :: rest)) ->
            entry_fields e = Some (t, i) ->
            Node_getTracks cls req = Return (construct (cls_name cls) t i)) /\
        (forall (elems : list pyval) (tis : list (pyval * pyval)),
            loadType_of d = PStr "SEARCH_RESULT" ->
            dict_get "tracks" d = Some (PList elems) ->
            map entry_fields elems = map Some tis ->
            Node_getTracks cls req
            = Return (PList (map (construct_pair (cls_name cls)) tis))) /\
        (forall (pi : list (string * pyval)) (name : pyval) (elems : list pyval)
                (tis : list (pyval * pyval)) (tc : string),
            loadType_of d = PStr "PLAYLIST_LOADED" ->
            dict_get "playlistInfo" d = Some (PDict pi) ->
            dict_get "name" pi = Some name ->
            dict_get "tracks" d = Some (PList elems) ->
            map entry_fields elems = map Some tis ->
            cls__trackCls cls = Some tc ->
            Node_getTracks cls req
            = Return (construct (cls_name cls) name
                        (PList (map (construct_pair tc) tis))))).
Proof.
  intros cls req. split; [|split].
  - intros e He. unfold Node_getTracks, _getData. rewrite He. reflexivity.
  - intros data Hd. rewrite (Node_getTracks_decoded cls req Hd). split.
    + intros Hst. unfold getTracks.
      destruct (resp_status req =? 200) eqn:E; [apply Z.eqb_eq in E; contradiction|].
      reflexivity.
    + intros ->. apply getTracks_200_content_level.
  - intros d Hd Hst. rewrite (Node_getTracks_decoded cls req Hd), Hst.
    split; [|split; [|split; [|split]]].
    + intros Hlt. run_getTracks.
      rewrite loadType_of_get, Hlt. reflexivity.
    + intros Hlt. run_getTracks.
      rewrite loadType_of_get, Hlt. reflexivity.
    + intros e rest t i Hlt Htr He. run_getTracks.
      rewrite loadType_of_get, Hlt. cbn [obind eq_str]. cbn [String.eqb Ascii.eqb Bool.eqb].
      cbn [py_subscript]. rewrite Htr. cbn [obind py_subscript list_index].
      cbn. destruct (entry_fields_subscript e He) as (Ht & Hi).
      rewrite Ht, Hi. reflexivity.
    + intros elems tis Hlt Htr He. run_getTracks.
      rewrite loadType_of_get, Hlt. cbn [obind eq_str]. cbn [String.eqb Ascii.eqb Bool.eqb].
      cbn [py_subscript]. rewrite Htr. cbn [obind py_iter].
      rewrite (search_comprehension (cls_name cls) elems tis He). reflexivity.
    + intros pi name elems tis tc Hlt Hpi Hname Htr He Htc.
      run_getTracks.
      rewrite loadType_of_get, Hlt. cbn [obind eq_str]. cbn [String.eqb Ascii.eqb Bool.eqb].
      cbn [py_subscript]. rewrite Hpi. cbn [obind py_subscript]. rewrite Hname, Htr.
      cbn [obind py_iter].
      rewrite (playlist_comprehension cls elems Htc tis He). reflexivity.
Qed.

Lemma C8_witness :
  (Node_getTracks track_cls (mkResponse 200 (Return (PDict (response "NO_MATCHES" []))))
   = Return PNone) /\
  (Node_getTracks track_cls (mkResponse 200 (Return (PDict (response "LOAD_FAILED" []))))
   = Raise (LoadTrackError (PDict (response "LOAD_FAILED" [])))) /\
  (Node_getTracks track_cls
     (mkResponse 200 (Return (PDict (response "TRACK_LOADED" [entry "a" "A"]))))
   = Return (PObj "YoutubeTrack" [PStr "a"; PDict [("title", PStr "A")]])) /\
  (Node_getTracks track_cls
     (mkResponse 200
        (Return (PDict (response "SEARCH_RESULT" [entry "a" "A"; entry "b" "B"]))))
   = Return (PList [PObj "YoutubeTrack" [PStr "a"; PDict [("title", PStr "A")]];
                    PObj "YoutubeTrack" [PStr "b"; PDict [("title", PStr "B")]]])) /\
  (Node_getTracks playlist_cls
     (mkResponse 200
        (Return (PDict (response "PLAYLIST_LOADED" [entry "a" "A"; entry "b" "B"]))))
   = Return (PObj "YoutubePlaylist"
               [PStr "mix";
                PList [PObj "YoutubeTrack" [PStr "a"; PDict [("title", PStr "A")]];
                       PObj "YoutubeTrack" [PStr "b"; PDict [("title", PStr "B")]]]])) /\
  (Node_getTracks track_cls (mkResponse 404 (Return PNone)) = Raise LavalinkException) /\
  (Node_getTracks track_cls (mkResponse 200 (Return PNone)) <> Raise LavalinkException) /\
  (Node_getTracks track_cls (mkResponse 200 (Raise DecodeError)) = Raise DecodeError).
Proof.
  pose (ok := fun d => mkResponse 200 (Return (PDict d))).
  split; [|split; [|split; [|split; [|split; [|split; [|split]]]]]].
  - exact (proj1 (proj2 (proj2 (C8_getTracks_outcomes track_cls
                                  (ok (response "NO_MATCHES" []))))
                    (response "NO_MATCHES" []) eq_refl eq_refl)
             eq_refl).
  - exact (proj1 (proj2 (proj2 (proj2 (C8_getTracks_outcomes track_cls
                                  (ok (response "LOAD_FAILED" []))))
                    (response "LOAD_FAILED" []) eq_refl eq_refl))
             eq_refl).
  - exact (proj1 (proj2 (proj2 (proj2 (proj2 (C8_getTracks_outcomes track_cls
                                  (ok (response "TRACK_LOADED" [entry "a" "A"]))))
                    (response "TRACK_LOADED" [entry "a" "A"]) eq_refl eq_refl)))
             (entry "a" "A") [] (PStr "a") (PDict [("title", PStr "A")])
             eq_refl eq_refl eq_refl).
  - exact (proj1 (proj2 (proj2 (proj2 (proj2 (proj2 (C8_getTracks_outcomes track_cls
                                  (ok (response "SEARCH_RESULT"
                                         [entry "a" "A"; entry "b" "B"]))))
                    (response "SEARCH_RESULT" [entry "a" "A"; entry "b" "B"])
                    eq_refl eq_refl))))
             [entry "a" "A"; entry "b" "B"]
             [(PStr "a", PDict [("title", PStr "A")]);
              (PStr "b", PDict [("title", PStr "B")])]
             eq_refl eq_refl eq_refl).
  - exact (proj2 (proj2 (proj2 (proj2 (proj2 (proj2 (C8_getTracks_outcomes playlist_cls
                                  (ok (response "PLAYLIST_LOADED"
                                         [entry "a" "A"; entry "b" "B"]))))
                    (response "PLAYLIST_LOADED" [entry "a" "A"; entry "b" "B"])
                    eq_refl eq_refl))))
             [("name", PStr "mix")] (PStr "mix")
             [entry "a" "A"; entry "b" "B"]
             [(PStr "a", PDict [("title", PStr "A")]);
              (PStr "b", PDict [("title", PStr "B")])]
             "YoutubeTrack"
             eq_refl eq_refl eq_refl eq_refl eq_refl eq_refl).
  - exact (proj1 (proj1 (proj2 (C8_getTracks_outcomes track_cls
                                  (mkResponse 404 (Return PNone))))
                    PNone eq_refl)
             ltac:(discriminate)).
  - exact (proj2 (proj1 (proj2 (C8_getTracks_outcomes track_cls
                                  (mkResponse 200 (Return PNone))))
                    PNone eq_refl)
             eq_refl).
  - exact (proj1 (C8_getTracks_outcomes track_cls (mkResponse 200 (Raise DecodeError)))
             DecodeError eq_refl).
Defined.

(** C8 (as stated) fails.  A status other than 200 does not always raise
    the protocol error: when the body does not decode, the decoder's
    error comes out first.  And a response of status 200 does not
    always give the outcome the claim names for its [loadType]:
    TRACK_LOADED with no entry raises IndexError instead of giving a
    Track; SEARCH_RESULT with an entry that has no [track] raises
    KeyError instead of giving a sequence; PLAYLIST_LOADED asked for
    with a class that has no [_trackCls] raises AttributeError instead
    of giving a collection. *)
Lemma C8_counterexample :
  Node_getTracks track_cls (mkResponse 500 (Raise DecodeError)) = Raise DecodeError /\
  Node_getTracks track_cls (mkResponse 500 (Raise DecodeError)) <> Raise LavalinkException /\
  Node_getTracks track_cls (mkResponse 200 (Return (PDict (response "TRACK_LOADED" []))))
  = Raise IndexError /\
  Node_getTracks track_cls
    (mkResponse 200
       (Return (PDict (response "SEARCH_RESULT"
                         [entry "a" "A"; PDict [("info", PDict [])]]))))
  = Raise (KeyError "track") /\
  Node_getTracks track_cls
    (mkResponse 200 (Return (PDict (response "PLAYLIST_LOADED" [entry "a" "A"]))))
  = Raise (AttributeError "YoutubeTrack" "_trackCls").
Proof.
  repeat split; try reflexivity. discriminate.
Qed.

(** C10.  On a response of status 200 whose body is an object with a
    [loadType] that is none of the five known tags (or with none at
    all), [getTracks] falls off the end of the chain of tests and
    returns [None], the very value it returns for NO_MATCHES. *)
Theorem C10_unknown_loadType_returns_None :
  forall (cls : PyClass) (d : list (string * pyval)),
    existsb (eq_str (loadType_of d)) known_loadTypes = false ->
    getTracks cls 200 (PDict d) = Return PNone /\
    (forall d' : list (string * pyval),
        loadType_of d' = PStr "NO_MATCHES" ->
        getTracks cls 200 (PDict d') = getTracks cls 200 (PDict d)).
Proof.
  intros cls d H. cbn [existsb known_loadTypes] in H.
  repeat (apply Bool.orb_false_elim in H; destruct H as [? H]).
  assert (E : getTracks cls 200 (PDict d) = Return PNone).
  { run_getTracks. rewrite loadType_of_get.
    cbn [obind].
    repeat match goal with
           | Hx : eq_str (loadType_of d) _ = false |- _ => rewrite Hx; clear Hx
           end.
    reflexivity. }
  split; [exact E|].
  intros d' Hd'. rewrite E. run_getTracks.
  rewrite loadType_of_get, Hd'. reflexivity.
Qed.

Lemma C10_witness :
  existsb (eq_str (loadType_of (response "TRACK_LOADING" [entry "a" "A"])))
          known_loadTypes = false /\
  getTracks track_cls 200 (PDict (response "TRACK_LOADING" [entry "a" "A"]))
  = Return PNone /\
  (forall d' : list (string * pyval),
      loadType_of d' = PStr "NO_MATCHES" ->
      getTracks track_cls 200 (PDict d')
      = getTracks track_cls 200 (PDict (response "TRACK_LOADING" [entry "a" "A"]))).
Proof.
  split; [reflexivity|].
  exact (@C10_unknown_loadType_returns_None track_cls
           (response "TRACK_LOADING" [entry "a" "A"]) eq_refl).
Defined.


(* ===================================================================== *)
(** ** Further properties: local state of the Player commands            *)
(* ===================================================================== *)

(** Whatever [self.node.send] resolves to, the call touches nothing but
    the frames written to the websocket. *)
Lemma node_send_keeps cls (payload : pyval) (w : World) :
  heap (snd (node_send cls payload w)) = heap w /\
  voice_calls (snd (node_send cls payload w)) = voice_calls w /\
  _players (node (snd (node_send cls payload w))) = _players (node w) /\
  client_channels (snd (node_send cls payload w)) = client_channels w.
Proof.
  unfold node_send.
  destruct (dict_get "send" cls) as [m|]; [|repeat split].
  destruct m; try (repeat split).
  all: unfold Node__send; destruct (_websocket (node w)); reflexivity.
Qed.

(** [setVolume] stores a volume between 0 and 1000 whatever it is
    given: the argument itself when it is in that range, the nearer
    bound otherwise.  This holds whether or not the send succeeds. *)
Theorem setVolume_clamps :
  forall cls (self : ident) (v : Z) (w : World),
    let vol := _volume (heap (snd (Player_setVolume cls self v w)) self) in
    0 <= vol <= 1000 /\
    vol = (if v <? 0 then 0 else if 1000 <? v then 1000 else v).
Proof.
  intros cls self v w.
  unfold Player_setVolume, bind, get_player, update_player. cbn [fst snd].
  rewrite !node_send_heap. cbn [heap set_heap]. rewrite !heap_upd_same.
  cbn [_volume set__volume].
  destruct (v <? 0) eqn:E0; [apply Z.ltb_lt in E0 | apply Z.ltb_ge in E0].
  - split; lia.
  - destruct (1000 <? v) eqn:E1; [apply Z.ltb_lt in E1 | apply Z.ltb_ge in E1];
      split; lia.
Qed.

(** [play] with [replace=False] on a Player that is playing does
    nothing at all; in every other case it stores the track and the
    volume as given, without clamping the volume, before the send and
    whatever the send does. *)
Theorem play_stores_track_and_volume :
  forall cls (self : ident) (t : Track) (startTime endTime v : Z)
         (replace pause : bool) (w : World),
    (isPlaying (heap w self) && negb replace = true ->
     Player_play cls self t startTime endTime v replace pause w = (Return tt, w)) /\
    (isPlaying (heap w self) && negb replace = false ->
     let p' := heap (snd (Player_play cls self t startTime endTime v replace pause w)) self in
     _track p' = Some t /\ _volume p' = v /\
     isPlaying p' = isConnected (heap w self)).
Proof.
  intros cls self t startTime endTime v replace pause w. split; intros H.
  - unfold Player_play, bind, get_player. cbn [fst snd]. rewrite H. reflexivity.
  - unfold Player_play, bind, get_player, update_player. cbn [fst snd]. rewrite H.
    rewrite !node_send_heap. cbn [heap set_heap]. rewrite !heap_upd_same.
    unfold isPlaying, isConnected. cbn. rewrite Bool.andb_true_r. auto.
Qed.

Lemma play_stores_track_and_volume_witness :
  (let w := world_playing track60 in
   isPlaying (heap w 0%nat) && negb false = true /\
   Player_play Node_class 0%nat track60 0 0 50 false false w = (Return tt, w)) /\
  (let w := snd (Player_connect Node_class 0%nat world_fresh) in
   isPlaying (heap w 0%nat) && negb true = false /\
   let p' := heap (snd (Player_play Node_class 0%nat track60 0 0 5000 true false w))
                  0%nat in
   _track p' = Some track60 /\ _volume p' = 5000 /\
   isPlaying p' = isConnected (heap w 0%nat)).
Proof.
  split.
  - split; [reflexivity|].
    exact (proj1 (play_stores_track_and_volume Node_class 0%nat track60 0 0 50
                    false false (world_playing track60)) eq_refl).
  - split; [reflexivity|].
    exact (proj2 (play_stores_track_and_volume Node_class 0%nat track60 0 0 5000
                    true false (snd (Player_connect Node_class 0%nat world_fresh)))
             eq_refl).
Defined.

(** After [stop], no track is current, the Player is not playing, and
    [position] reads 0 at any time, whatever the send and the closing
    log line did. *)
Theorem stop_then_position_is_zero :
  forall cls (self : ident) (w : World) (now : Q),
    let p' := heap (snd (Player_stop cls self w)) self in
    _track p' = None /\ isPlaying p' = false /\ position now p' = Return (PInt 0).
Proof.
  intros cls self w now.
  assert (E : heap (snd (Player_stop cls self w))
              = heap_upd (heap w) self (set__track None (heap w self))).
  { unfold Player_stop, bind, get_player, update_player. cbn [fst snd].
    match goal with
    | |- context [node_send cls ?payload ?w1] =>
        pose proof (node_send_heap cls payload w1) as H;
        destruct (node_send cls payload w1) as [r w2]
    end.
    cbn [snd heap set_heap] in H. destruct r; [|exact H].
    unfold logger_debug. destruct (track_title_of (_track (heap w self))); exact H. }
  cbv zeta. rewrite E, heap_upd_same.
  assert (Hp : isPlaying (set__track None (heap w self)) = false).
  { unfold isPlaying. cbn. apply Bool.andb_false_r. }
  repeat split; [exact Hp|].
  unfold position. rewrite Hp. reflexivity.
Qed.

(** [seek] never changes the Player or the host: whether it raises
    (no current track, position beyond the length, failing send) or
    returns, every Player object and the record of host calls are as
    before.  Without a current track it raises AttributeError and the
    whole world is as before. *)
Theorem seek_changes_no_state :
  forall cls (self : ident) (pos : Z) (w : World),
    heap (snd (Player_seek cls self pos w)) = heap w /\
    voice_calls (snd (Player_seek cls self pos w)) = voice_calls w /\
    (_track (heap w self) = None ->
     Player_seek cls self pos w = (Raise (AttributeError "NoneType" "length"), w)).
Proof.
  intros cls self pos w.
  unfold Player_seek, bind, get_player, lift. cbn [fst snd].
  destruct (_track (heap w self)) as [t|]; cbn [track_length_of].
  - destruct (negb (Qle_bool (inject_Z pos) (track_length t))).
    + repeat split. discriminate.
    + destruct (node_send_keeps cls
                  (PDict [("op", PStr "seek"); ("guildId", guildId (heap w self));
                          ("position", PInt pos)]) w) as (H1 & H2 & _).
      repeat split; [exact H1 | exact H2 | discriminate].
  - repeat split.
Qed.

Lemma seek_changes_no_state_witness :
  heap (snd (Player_seek Node_class 0%nat 5 world_fresh)) = heap world_fresh /\
  voice_calls (snd (Player_seek Node_class 0%nat 5 world_fresh))
  = voice_calls world_fresh /\
  _track (heap world_fresh 0%nat) = None /\
  Player_seek Node_class 0%nat 5 world_fresh
  = (Raise (AttributeError "NoneType" "length"), world_fresh).
Proof.
  destruct (seek_changes_no_state Node_class 0%nat 5 world_fresh) as (H1 & H2 & H3).
  split; [exact H1|]. split; [exact H2|]. split; [reflexivity|].
  exact (H3 eq_refl).
Defined.

(* ===================================================================== *)
(** ** Further properties: attaching and detaching                       *)
(* ===================================================================== *)

Lemma list_remove_app_last (x : ident) (l : list ident) :
  ~ In x l -> list_remove x (l ++ [x]) = Some l.
Proof.
  induction l as [|y t IH]; intros Hn; cbn [list_remove app].
  - now rewrite Nat.eqb_refl.
  - destruct (Nat.eqb x y) eqn:E.
    + apply Nat.eqb_eq in E. subst y. exfalso. apply Hn. now left.
    + rewrite IH; [reflexivity|]. intros Hin. apply Hn. now right.
Qed.

Lemma list_remove_app_twice (x : ident) (l : list ident) :
  ~ In x l -> list_remove x (l ++ [x; x]) = Some (l ++ [x])%list.
Proof.
  induction l as [|y t IH]; intros Hn; cbn [list_remove app].
  - now rewrite Nat.eqb_refl.
  - destruct (Nat.eqb x y) eqn:E.
    + apply Nat.eqb_eq in E. subst y. exfalso. apply Hn. now left.
    + rewrite IH; [reflexivity|]. intros Hin. apply Hn. now right.
Qed.

Lemma list_remove_absent (x : ident) (l : list ident) :
  ~ In x l -> list_remove x l = None.
Proof.
  induction l as [|y t IH]; intros Hn; cbn [list_remove]; [reflexivity|].
  destruct (Nat.eqb x y) eqn:E.
  - apply Nat.eqb_eq in E. subst y. exfalso. apply Hn. now left.
  - rewrite IH; [reflexivity|]. intros Hin. apply Hn. now right.
Qed.

(** [connect] then [disconnect], on a guild that accepts both voice
    state changes and for a Player that was not attached: in between
    the Player is attached (last in the list) and connected; afterwards
    the node's list is exactly what it was and the Player is marked
    disconnected. *)
Theorem connect_disconnect_round_trip :
  forall (self : ident) (w : World),
    gateway_of w self = true ->
    ~ In self (_players (node w)) ->
    let r1 := Player_connect Node_class self w in
    let r2 := Player_disconnect Node_class self (snd r1) in
    fst r1 = Return tt /\
    _players (node (snd r1)) = (_players (node w) ++ [self])%list /\
    _connected (heap (snd r1) self) = true /\
    fst r2 = Return tt /\
    _players (node (snd r2)) = _players (node w) /\
    _connected (heap (snd r2) self) = false /\
    voice_calls (snd r2)
    = (voice_calls w
         ++ [(self, Some (channel_id (channel (heap w self)))); (self, None)])%list.
Proof.
  intros self w Hg Hn. unfold gateway_of in Hg.
  unfold Player_connect, Player_disconnect, bind, get_player, update_player,
    change_voice_state, set_node_players.
  rewrite node_players_source. cbn [fst snd heap node set_voice_calls set_heap set_node
                                    _players voice_calls].
  rewrite Hg. cbn [fst snd heap node set_voice_calls set_heap set_node
                   _players voice_calls].
  rewrite !heap_upd_same. cbn [channel set__connected]. rewrite Hg.
  cbn [fst snd heap node set_voice_calls set_heap set_node _players voice_calls].
  rewrite (@list_remove_app_last _ _ Hn).
  cbn [fst snd heap node set_voice_calls set_heap set_node _players voice_calls].
  rewrite !heap_upd_same. cbn [_connected set__connected].
  rewrite <- app_assoc. repeat split.
Qed.

Lemma connect_disconnect_round_trip_witness :
  gateway_of world_fresh 0%nat = true /\
  ~ In 0%nat (_players (node world_fresh)) /\
  let r1 := Player_connect Node_class 0%nat world_fresh in
  let r2 := Player_disconnect Node_class 0%nat (snd r1) in
  fst r1 = Return tt /\
  _players (node (snd r1)) = [0%nat] /\
  _connected (heap (snd r1) 0%nat) = true /\
  fst r2 = Return tt /\
  _players (node (snd r2)) = [] /\
  _connected (heap (snd r2) 0%nat) = false /\
  voice_calls (snd r2) = [(0%nat, Some 10); (0%nat, None)].
Proof.
  split; [reflexivity|]. split; [intros []|].
  exact (@connect_disconnect_round_trip 0%nat world_fresh eq_refl (fun H => H)).
Defined.

(** When the host refuses the voice state change, [connect] raises and
    attaches nothing: the node's list and every Player object are as
    before; only the attempted host call is on record. *)
Theorem connect_refused_attaches_nothing :
  forall (self : ident) (w : World),
    gateway_of w self = false ->
    let r := Player_connect Node_class self w in
    fst r = Raise HostError /\
    node (snd r) = node w /\
    heap (snd r) = heap w /\
    voice_calls (snd r)
    = (voice_calls w ++ [(self, Some (channel_id (channel (heap w self))))])%list.
Proof.
  intros self w Hg. unfold gateway_of in Hg.
  unfold Player_connect, bind, get_player, change_voice_state.
  cbn [fst snd]. rewrite Hg. repeat split.
Qed.

Lemma connect_refused_attaches_nothing_witness :
  gateway_of world_refused 0%nat = false /\
  let r := Player_connect Node_class 0%nat world_refused in
  fst r = Raise HostError /\
  node (snd r) = node world_refused /\
  heap (snd r) = heap world_refused /\
  voice_calls (snd r) = [(0%nat, Some 20)].
Proof.
  split; [reflexivity|].
  exact (@connect_refused_attaches_nothing 0%nat world_refused eq_refl).
Defined.

(** [disconnect] on a Player that is not in the node's list: the host
    is told to leave the channel, then [list.remove] raises ValueError;
    the list and the Player's connected flag are as before. *)
Theorem disconnect_not_attached_raises :
  forall (self : ident) (w : World),
    gateway_of w self = true ->
    ~ In self (_players (node w)) ->
    let r := Player_disconnect Node_class self w in
    fst r = Raise ValueError /\
    voice_calls (snd r) = (voice_calls w ++ [(self, None)])%list /\
    node (snd r) = node w /\
    heap (snd r) = heap w.
Proof.
  intros self w Hg Hn. unfold gateway_of in Hg.
  unfold Player_disconnect, bind, change_voice_state.
  rewrite node_players_source. cbn [fst snd]. rewrite Hg.
  cbn [fst snd node set_voice_calls]. rewrite (@list_remove_absent _ _ Hn).
  repeat split.
Qed.

Lemma disconnect_not_attached_raises_witness :
  gateway_of world_fresh 0%nat = true /\
  ~ In 0%nat (_players (node world_fresh)) /\
  let r := Player_disconnect Node_class 0%nat world_fresh in
  fst r = Raise ValueError /\
  voice_calls (snd r) = [(0%nat, None)] /\
  node (snd r) = node world_fresh /\
  heap (snd r) = heap world_fresh.
Proof.
  split; [reflexivity|]. split; [intros []|].
  exact (@disconnect_not_attached_raises 0%nat world_fresh eq_refl (fun H => H)).
Defined.

(** [connect] does not check for an existing attachment: a second
    [connect] appends the Player again, and one [disconnect] then
    removes only the first occurrence, leaving a Player that is marked
    disconnected and still in the node's list. *)
Theorem connect_twice_attaches_twice :
  forall (self : ident) (w : World),
    gateway_of w self = true ->
    ~ In self (_players (node w)) ->
    let w2 := snd (Player_connect Node_class self
                     (snd (Player_connect Node_class self w))) in
    let r := Player_disconnect Node_class self w2 in
    _players (node w2) = (_players (node w) ++ [self; self])%list /\
    fst r = Return tt /\
    _players (node (snd r)) = (_players (node w) ++ [self])%list /\
    _connected (heap (snd r) self) = false.
Proof.
  intros self w Hg Hn. unfold gateway_of in Hg.
  assert (Hrem : list_remove self ((_players (node w) ++ [self]) ++ [self])
                 = Some (_players (node w) ++ [self])%list).
  { rewrite <- app_assoc. cbn [app]. apply list_remove_app_twice. exact Hn. }
  unfold Player_connect, Player_disconnect, bind, get_player, update_player,
    change_voice_state, set_node_players.
  rewrite node_players_source.
  cbn [fst snd heap node set_voice_calls set_heap set_node _players voice_calls].
  rewrite Hg.
  cbn [fst snd heap node set_voice_calls set_heap set_node _players voice_calls].
  rewrite !heap_upd_same. cbn [channel set__connected]. rewrite Hg.
  cbn [fst snd heap node set_voice_calls set_heap set_node _players voice_calls].
  rewrite !heap_upd_same. cbn [channel set__connected]. rewrite Hg.
  cbn [fst snd heap node set_voice_calls set_heap set_node _players voice_calls].
  rewrite Hrem.
  cbn [fst snd heap node set_voice_calls set_heap set_node _players voice_calls].
  rewrite !heap_upd_same. cbn [_connected set__connected].
  rewrite <- app_assoc. repeat split.
Qed.

Lemma connect_twice_attaches_twice_witness :
  gateway_of world_fresh 0%nat = true /\
  ~ In 0%nat (_players (node world_fresh)) /\
  let w2 := snd (Player_connect Node_class 0%nat
                   (snd (Player_connect Node_class 0%nat world_fresh))) in
  let r := Player_disconnect Node_class 0%nat w2 in
  _players (node w2) = [0%nat; 0%nat] /\
  fst r = Return tt /\
  _players (node (snd r)) = [0%nat] /\
  _connected (heap (snd r) 0%nat) = false.
Proof.
  split; [reflexivity|]. split; [intros []|].
  exact (@connect_twice_attaches_twice 0%nat world_fresh eq_refl (fun H => H)).
Defined.

(* ===================================================================== *)
(** ** Further properties: the filter map                                *)
(* ===================================================================== *)

Lemma str_mem_In (k : string) (l : list string) :
  str_mem k l = true <-> In k l.
Proof.
  unfold str_mem. rewrite existsb_exists. split.
  - intros (x & Hx & E). apply String.eqb_eq in E. now subst.
  - intros H. exists k. split; [exact H | apply String.eqb_refl].
Qed.

Lemma str_mem_not_In (k : string) (l : list string) :
  str_mem k l = false <-> ~ In k l.
Proof.
  rewrite <- str_mem_In. destruct (str_mem k l); split; intros H; congruence.
Qed.

Lemma dict_get_set_same (V : Type) (k : string) (v : V) (d : list (string * V)) :
  dict_get k (dict_set k v d) = Some v.
Proof.
  induction d as [|[a x] d IH]; cbn [dict_set dict_get].
  - now rewrite String.eqb_refl.
  - destruct (String.eqb k a) eqn:E; cbn [dict_get]; rewrite E; [reflexivity | exact IH].
Qed.

Lemma dict_get_set_other (V : Type) (k k' : string) (v : V) (d : list (string * V)) :
  k <> k' -> dict_get k (dict_set k' v d) = dict_get k d.
Proof.
  intros Hk. apply String.eqb_neq in Hk.
  induction d as [|[a x] d IH]; cbn [dict_set dict_get].
  - now rewrite Hk.
  - destruct (String.eqb k' a) eqn:E; cbn [dict_get].
    + apply String.eqb_eq in E. subst a. now rewrite Hk.
    + rewrite IH. reflexivity.
Qed.

Lemma dict_set_fresh (V : Type) (k : string) (v : V) (d : list (string * V)) :
  str_mem k (dict_keys d) = false -> dict_set k v d = (d ++ [(k, v)])%list.
Proof.
  unfold str_mem, dict_keys.
  induction d as [|[a x] d IH]; cbn [dict_set map existsb fst app]; [reflexivity|].
  intros H. apply Bool.orb_false_elim in H. destruct H as [E H].
  rewrite E, (IH H). reflexivity.
Qed.

Lemma dict_del_app_fresh (V : Type) (k : string) (v : V) (d : list (string * V)) :
  str_mem k (dict_keys d) = false -> dict_del k (d ++ [(k, v)]) = d.
Proof.
  unfold str_mem, dict_keys.
  induction d as [|[a x] d IH]; cbn [dict_del map existsb fst app].
  - now rewrite String.eqb_refl.
  - intros H. apply Bool.orb_false_elim in H. destruct H as [E H].
    rewrite E, (IH H). reflexivity.
Qed.

Lemma dict_get_del_other (V : Type) (k k' : string) (d : list (string * V)) :
  k <> k' -> dict_get k (dict_del k' d) = dict_get k d.
Proof.
  intros Hk. apply String.eqb_neq in Hk.
  induction d as [|[a x] d IH]; cbn [dict_del dict_get]; [reflexivity|].
  destruct (String.eqb k' a) eqn:E; cbn [dict_get].
  - apply String.eqb_eq in E. subst a. now rewrite Hk.
  - rewrite IH. reflexivity.
Qed.

Lemma dict_keys_del_incl (V : Type) (k a : string) (d : list (string * V)) :
  In a (dict_keys (dict_del k d)) -> In a (dict_keys d).
Proof.
  unfold dict_keys.
  induction d as [|[b x] d IH]; cbn [dict_del map fst]; [auto|].
  destruct (String.eqb k b); cbn [map fst In].
  - auto.
  - intros [H|H]; [now left | right; now apply IH].
Qed.

Lemma dict_del_NoDup (V : Type) (k : string) (d : list (string * V)) :
  NoDup (dict_keys d) ->
  NoDup (dict_keys (dict_del k d)) /\ ~ In k (dict_keys (dict_del k d)).
Proof.
  unfold dict_keys.
  induction d as [|[b x] d IH]; cbn [dict_del map fst]; intros Hnd.
  - split; [constructor | intros []].
  - inversion Hnd as [|? ? Hb Hd]; subst.
    destruct (String.eqb k b) eqn:E.
    + apply String.eqb_eq in E. subst b. split; assumption.
    + apply String.eqb_neq in E. destruct (IH Hd) as (H1 & H2).
      cbn [map fst]. split.
      * constructor; [|exact H1]. intros Hin. apply Hb.
        now apply (@dict_keys_del_incl V k b d).
      * intros [H|H]; [now apply E | now apply H2].
Qed.

Lemma dict_del_Forall (V : Type) (P : string * V -> Prop) (k : string)
      (d : list (string * V)) :
  Forall P d -> Forall P (dict_del k d).
Proof.
  induction d as [|[b x] d IH]; cbn [dict_del]; intros H; [constructor|].
  inversion H; subst. destruct (String.eqb k b); [assumption|].
  constructor; auto.
Qed.

(** The Player's filter map after [addFilter], whatever the send did. *)
Lemma addFilter_filters cls (self : ident) (f : LavapyFilter) (w : World) :
  str_mem (filter_name f) (dict_keys (_filters (heap w self))) = false ->
  _filters (heap (snd (Player_addFilter cls self f w)) self)
  = dict_set (filter_name f) f (_filters (heap w self)).
Proof.
  intros H. run_player. cbn [fst snd]. rewrite H.
  cbn [fst snd]. rewrite node_send_heap. cbn [heap set_heap].
  rewrite heap_upd_same. reflexivity.
Qed.

(** The Player's filter map after [removeFilter] of an applied name,
    whatever the send did. *)
Lemma removeFilter_filters cls (self : ident) (f : LavapyFilter) (w : World) :
  str_mem (filter_name f) (dict_keys (_filters (heap w self))) = true ->
  _filters (heap (snd (Player_removeFilter cls self f w)) self)
  = dict_del (filter_name f) (_filters (heap w self)) /\
  fst (Player_removeFilter cls self f w) <> Raise FilterNotApplied.
Proof.
  intros H. unfold Player_removeFilter. run_player. cbn [fst snd]. rewrite H.
  cbn [negb fst snd]. split.
  - rewrite node_send_heap. cbn [heap set_heap]. rewrite heap_upd_same. reflexivity.
  - unfold node_send. destruct (dict_get "send" cls) as [m|]; [|discriminate].
    destruct m; try discriminate.
    unfold Node__send. cbn [node set_heap].
    destruct (_websocket (node w)); discriminate.
Qed.

(** After [addFilter] with a name that was not applied, the map gives
    the filter back under its name, every other name maps to what it
    did, and the map has one entry more; this holds even when the send
    that follows fails. *)
Theorem addFilter_then_lookup :
  forall cls (self : ident) (f : LavapyFilter) (w : World),
    str_mem (filter_name f) (dict_keys (_filters (heap w self))) = false ->
    let fs := _filters (heap (snd (Player_addFilter cls self f w)) self) in
    dict_get (filter_name f) fs = Some f /\
    (forall k, k <> filter_name f ->
               dict_get k fs = dict_get k (_filters (heap w self))) /\
    List.length fs = S (List.length (_filters (heap w self))).
Proof.
  intros cls self f w H. cbv zeta. rewrite (@addFilter_filters cls self f w H).
  split; [apply dict_get_set_same|]. split.
  - intros k Hk. now apply dict_get_set_other.
  - rewrite (@dict_set_fresh _ _ f _ H), length_app. cbn. lia.
Qed.

Lemma addFilter_then_lookup_witness :
  str_mem (filter_name sample_filter)
          (dict_keys (_filters (heap world_fresh 0%nat))) = false /\
  let fs := _filters (heap (snd (Player_addFilter Node_class 0%nat sample_filter
                                   world_fresh)) 0%nat) in
  dict_get (filter_name sample_filter) fs = Some sample_filter /\
  (forall k, k <> filter_name sample_filter ->
             dict_get k fs = dict_get k (_filters (heap world_fresh 0%nat))) /\
  List.length fs = S (List.length (_filters (heap world_fresh 0%nat))).
Proof.
  split; [reflexivity|].
  exact (@addFilter_then_lookup Node_class 0%nat sample_filter world_fresh eq_refl).
Defined.

(** [addFilter] of a name that was not applied, followed by
    [removeFilter] of that name, gives back exactly the filter map there
    was, and the removal does not raise FilterNotApplied. *)
Theorem addFilter_removeFilter_round_trip :
  forall cls (self : ident) (f : LavapyFilter) (w : World),
    str_mem (filter_name f) (dict_keys (_filters (heap w self))) = false ->
    let w1 := snd (Player_addFilter cls self f w) in
    let r := Player_removeFilter cls self f w1 in
    _filters (heap (snd r) self) = _filters (heap w self) /\
    fst r <> Raise FilterNotApplied.
Proof.
  intros cls self f w H. cbv zeta.
  pose proof (@addFilter_filters cls self f w H) as E1.
  assert (Hin : str_mem (filter_name f)
                  (dict_keys (_filters (heap (snd (Player_addFilter cls self f w)) self)))
                = true).
  { rewrite E1, str_mem_dict_set, String.eqb_refl. reflexivity. }
  destruct (@removeFilter_filters cls self f _ Hin) as (E2 & Hne).
  split; [|exact Hne].
  rewrite E2, E1, (@dict_set_fresh _ _ f _ H). now apply dict_del_app_fresh.
Qed.

Lemma addFilter_removeFilter_round_trip_witness :
  str_mem (filter_name sample_filter)
          (dict_keys (_filters (heap world_fresh 0%nat))) = false /\
  let w1 := snd (Player_addFilter Node_class 0%nat sample_filter world_fresh) in
  let r := Player_removeFilter Node_class 0%nat sample_filter w1 in
  _filters (heap (snd r) 0%nat) = _filters (heap world_fresh 0%nat) /\
  fst r <> Raise FilterNotApplied.
Proof.
  split; [reflexivity|].
  exact (@addFilter_removeFilter_round_trip Node_class 0%nat sample_filter
           world_fresh eq_refl).
Defined.

(** [removeFilter] of a name that is not applied raises
    FilterNotApplied and changes nothing; of an applied name, in a map
    keyed by distinct names, it leaves the name unapplied and every
    other name mapped as before. *)
Theorem removeFilter_removes_only_that_name :
  forall cls (self : ident) (f : LavapyFilter) (w : World),
    (str_mem (filter_name f) (dict_keys (_filters (heap w self))) = false ->
     Player_removeFilter cls self f w = (Raise FilterNotApplied, w)) /\
    (str_mem (filter_name f) (dict_keys (_filters (heap w self))) = true ->
     NoDup (dict_keys (_filters (heap w self))) ->
     let fs := _filters (heap (snd (Player_removeFilter cls self f w)) self) in
     dict_get (filter_name f) fs = None /\
     forall k, k <> filter_name f ->
               dict_get k fs = dict_get k (_filters (heap w self))).
Proof.
  intros cls self f w. split.
  - intros H. unfold Player_removeFilter, bind, get_player. cbn [fst snd].
    rewrite H. reflexivity.
  - intros H Hnd. cbv zeta.
    destruct (@removeFilter_filters cls self f w H) as (E & _). rewrite E.
    split.
    + destruct (@dict_del_NoDup _ (filter_name f) _ Hnd) as (_ & Hnot).
      apply str_mem_not_In in Hnot. rewrite <- dict_mem_keys in Hnot.
      unfold dict_mem in Hnot.
      destruct (dict_get (filter_name f) (dict_del (filter_name f) (_filters (heap w self))));
        [discriminate | reflexivity].
    + intros k Hk. now apply dict_get_del_other.
Qed.

Lemma removeFilter_removes_only_that_name_witness :
  (str_mem (filter_name sample_filter)
           (dict_keys (_filters (heap world_fresh 0%nat))) = false /\
   Player_removeFilter Node_class 0%nat sample_filter world_fresh
   = (Raise FilterNotApplied, world_fresh)) /\
  (let w := snd (Player_addFilter Node_class 0%nat sample_filter world_fresh) in
   str_mem (filter_name sample_filter) (dict_keys (_filters (heap w 0%nat))) = true /\
   NoDup (dict_keys (_filters (heap w 0%nat))) /\
   let fs := _filters (heap (snd (Player_removeFilter Node_class 0%nat sample_filter w))
                            0%nat) in
   dict_get (filter_name sample_filter) fs = None /\
   forall k, k <> filter_name sample_filter ->
             dict_get k fs = dict_get k (_filters (heap w 0%nat))).
Proof.
  split.
  - split; [reflexivity|].
    exact (proj1 (removeFilter_removes_only_that_name Node_class 0%nat sample_filter
                    world_fresh) eq_refl).
  - split; [reflexivity|].
    assert (Hnd : NoDup (dict_keys (_filters
                     (heap (snd (Player_addFilter Node_class 0%nat sample_filter
                                   world_fresh)) 0%nat)))).
    { constructor; [intros [] | constructor]. }
    split; [exact Hnd|].
    exact (proj2 (removeFilter_removes_only_that_name Node_class 0%nat sample_filter
                    (snd (Player_addFilter Node_class 0%nat sample_filter world_fresh)))
             eq_refl Hnd).
Defined.

(** [addFilter] and [removeFilter] keep the filter map keyed by the
    names of its filters, each name once, whichever way each call ends
    (rejected, sent, or failed in the send). *)
Theorem filter_map_stays_keyed_by_name :
  forall cls (self : ident) (f : LavapyFilter) (w : World),
    filters_ok (heap w self) ->
    filters_ok (heap (snd (Player_addFilter cls self f w)) self) /\
    filters_ok (heap (snd (Player_removeFilter cls self f w)) self).
Proof.
  intros cls self f w (Hnd & Hall). split.
  - destruct (str_mem (filter_name f) (dict_keys (_filters (heap w self)))) eqn:H.
    + rewrite (@addFilter_existing cls self w f H). now split.
    + unfold filters_ok. rewrite (@addFilter_filters cls self f w H).
      rewrite (@dict_set_fresh _ _ f _ H). split.
      * unfold dict_keys. rewrite map_app. cbn [map fst].
        apply NoDup_app; [exact Hnd | constructor; [intros [] | constructor] |].
        intros a Ha [Hb|[]]. subst a.
        apply str_mem_not_In in H. now apply H.
      * apply Forall_app. split; [exact Hall|]. constructor; [reflexivity | constructor].
  - destruct (str_mem (filter_name f) (dict_keys (_filters (heap w self)))) eqn:H.
    + destruct (@removeFilter_filters cls self f w H) as (E & _).
      unfold filters_ok. rewrite E. split.
      * now apply dict_del_NoDup.
      * now apply dict_del_Forall.
    + unfold Player_removeFilter, bind, get_player. cbn [fst snd]. rewrite H.
      cbn [negb raise snd]. now split.
Qed.

Lemma filter_map_stays_keyed_by_name_witness :
  filters_ok (heap world_fresh 0%nat) /\
  filters_ok (heap (snd (Player_addFilter Node_class 0%nat sample_filter world_fresh))
                   0%nat) /\
  filters_ok (heap (snd (Player_removeFilter Node_class 0%nat sample_filter world_fresh))
                   0%nat).
Proof.
  assert (H0 : filters_ok (heap world_fresh 0%nat))
    by (split; constructor).
  split; [exact H0|].
  exact (@filter_map_stays_keyed_by_name Node_class 0%nat sample_filter world_fresh H0).
Defined.

(* ===================================================================== *)
(** ** Further properties: state sync and position                       *)
(* ===================================================================== *)

Lemma timezone_utc_resolved :
  obind (global_name "timezone") (fun tz => getattr tz "utc")
  = Return (RAttr timezone_class "utc").
Proof. reflexivity. Qed.

(** A state-sync frame without a [position] stores position 0 (the
    default of [state.get("position", 0)]) together with the frame's
    time, for a time within 2^33 seconds of the epoch (where the
    division by 1000 is exact to the microsecond). *)
Theorem updateState_position_defaults_to_zero :
  forall (self : ident) (w : World) (d st : list (string * pyval)) (time : Z),
    - 8589934592000 < time < 8589934592000 ->
    dict_get "state" d = Some (PDict st) ->
    dict_get "time" st = Some (PInt time) ->
    dict_get "position" st = None ->
    let r := _updateState self (PDict d) w in
    fst r = Return tt /\
    _lastUpdateTime (heap (snd r) self) = Some (inject_Z time / inject_Z 1000)%Q /\
    _lastPosition (heap (snd r) self) = Some (inject_Z 0 / inject_Z 1000)%Q.
Proof.
  intros self w d st time Hr Hd Ht Hp. cbv zeta.
  assert (Hr' : - 62135596800000 <= time <= 253402300799999) by lia.
  unfold _updateState, bind, lift, update_player.
  cbn [py_get]. rewrite Hd. cbn [py_get]. rewrite Ht, Hp.
  rewrite datetime_fromtimestamp_resolved, timezone_utc_resolved.
  cbn [py_truediv]. rewrite (@call_fromtimestamp_ms _ Hr').
  cbn [fst snd heap set_heap]. rewrite !heap_upd_same. repeat split.
Qed.

Lemma updateState_position_defaults_to_zero_witness :
  let d := [("state", PDict [("time", PInt 2000)])] in
  let st := [("time", PInt 2000)] in
  - 8589934592000 < 2000 < 8589934592000 /\
  dict_get "state" d = Some (PDict st) /\
  dict_get "time" st = Some (PInt 2000) /\
  dict_get "position" st = None /\
  let r := _updateState 0%nat (PDict d) world_fresh in
  fst r = Return tt /\
  _lastUpdateTime (heap (snd r) 0%nat) = Some (inject_Z 2000 / inject_Z 1000)%Q /\
  _lastPosition (heap (snd r) 0%nat) = Some (inject_Z 0 / inject_Z 1000)%Q.
Proof.
  split; [lia|]. split; [reflexivity|]. split; [reflexivity|]. split; [reflexivity|].
  exact (@updateState_position_defaults_to_zero 0%nat world_fresh
           [("state", PDict [("time", PInt 2000)])] [("time", PInt 2000)] 2000
           ltac:(lia) eq_refl eq_refl eq_refl).
Defined.

(** What [_updateState] leaves behind when it cannot read a frame.
    Without a [state] object it raises AttributeError, and with a
    [state] that has no [time] it raises TypeError, in both cases
    before anything is stored.  With a [time] (within 2^33 seconds of
    the epoch) but a [position] that cannot be divided, it raises on the
    position after the time was stored: the snapshot then has the new
    time and the old position. *)
Theorem updateState_unreadable_frame :
  forall (self : ident) (w : World) (d st : list (string * pyval)),
    (dict_get "state" d = None ->
     _updateState self (PDict d) w = (Raise (AttributeError "NoneType" "get"), w)) /\
    (dict_get "state" d = Some (PDict st) -> dict_get "time" st = None ->
     _updateState self (PDict d) w = (Raise TypeError, w)) /\
    (forall (time : Z) (pos : pyval) (e : exn),
        dict_get "state" d = Some (PDict st) ->
        dict_get "time" st = Some (PInt time) ->
        - 8589934592000 < time < 8589934592000 ->
        dict_get "position" st = Some pos ->
        py_truediv pos 1000 = Raise e ->
        let r := _updateState self (PDict d) w in
        fst r = Raise e /\
        _lastUpdateTime (heap (snd r) self) = Some (inject_Z time / inject_Z 1000)%Q /\
        _lastPosition (heap (snd r) self) = _lastPosition (heap w self)).
Proof.
  intros self w d st. split; [|split].
  - intros Hd. unfold _updateState, bind, lift. cbn [py_get]. rewrite Hd.
    rewrite datetime_fromtimestamp_resolved. reflexivity.
  - intros Hd Ht. unfold _updateState, bind, lift. cbn [py_get]. rewrite Hd.
    rewrite datetime_fromtimestamp_resolved. cbn [py_get]. rewrite Ht. reflexivity.
  - intros time pos e Hd Ht Hr Hp He. cbv zeta.
    assert (Hr' : - 62135596800000 <= time <= 253402300799999) by lia.
    unfold _updateState, bind, lift, update_player.
    cbn [py_get]. rewrite Hd. cbn [py_get]. rewrite Ht, Hp.
    rewrite datetime_fromtimestamp_resolved, timezone_utc_resolved.
    cbn [py_truediv]. rewrite (@call_fromtimestamp_ms _ Hr'). rewrite He.
    cbn [fst snd heap set_heap]. rewrite !heap_upd_same. repeat split.
Qed.

Lemma updateState_unreadable_frame_witness :
  (dict_get "state" [("op", PStr "playerUpdate")] = None /\
   _updateState 0%nat (PDict [("op", PStr "playerUpdate")]) world_fresh
   = (Raise (AttributeError "NoneType" "get"), world_fresh)) /\
  (dict_get "state" [("state", PDict [("position", PInt 5)])]
   = Some (PDict [("position", PInt 5)]) /\
   dict_get "time" [("position", PInt 5)] = None /\
   _updateState 0%nat (PDict [("state", PDict [("position", PInt 5)])]) world_fresh
   = (Raise TypeError, world_fresh)) /\
  (let st := [("time", PInt 2000); ("position", PStr "soon")] in
   dict_get "time" st = Some (PInt 2000) /\
   - 8589934592000 < 2000 < 8589934592000 /\
   dict_get "position" st = Some (PStr "soon") /\
   py_truediv (PStr "soon") 1000 = Raise TypeError /\
   let r := _updateState 0%nat (PDict [("state", PDict st)]) world_fresh in
   fst r = Raise TypeError /\
   _lastUpdateTime (heap (snd r) 0%nat) = Some (inject_Z 2000 / inject_Z 1000)%Q /\
   _lastPosition (heap (snd r) 0%nat) = _lastPosition (heap world_fresh 0%nat)).
Proof.
  split; [|split].
  - split; [reflexivity|].
    exact (proj1 (updateState_unreadable_frame 0%nat world_fresh
                    [("op", PStr "playerUpdate")] []) eq_refl).
  - split; [reflexivity|]. split; [reflexivity|].
    exact (proj1 (proj2 (updateState_unreadable_frame 0%nat world_fresh
                           [("state", PDict [("position", PInt 5)])]
                           [("position", PInt 5)])) eq_refl eq_refl).
  - split; [reflexivity|]. split; [lia|]. split; [reflexivity|].
    split; [reflexivity|].
    exact (proj2 (proj2 (updateState_unreadable_frame 0%nat world_fresh
                           [("state", PDict [("time", PInt 2000);
                                             ("position", PStr "soon")])]
                           [("time", PInt 2000); ("position", PStr "soon")]))
             2000 (PStr "soon") TypeError eq_refl eq_refl ltac:(lia) eq_refl eq_refl).
Defined.

Lemma Qmin2_bounds (a b : Q) : (Qmin2 a b <= a)%Q /\ (Qmin2 a b <= b)%Q.
Proof.
  unfold Qmin2. destruct (Qle_bool a b) eqn:E.
  - apply Qle_bool_iff in E. split; [apply Qle_refl | exact E].
  - split; [|apply Qle_refl].
    destruct (Qlt_le_dec b a) as [H|H].
    + now apply Qlt_le_weak.
    + apply Qle_bool_iff in H. congruence.
Qed.

(** While a playing Player's paused flag is true as a truth value,
    [position] does not read the clock: at any two times it returns the
    same number, and that number exceeds neither the snapshot position
    nor the track's length. *)
Theorem position_paused_is_frozen_and_bounded :
  forall (now now' : Q) (p : Player) (t : Track) (x : Q),
    _connected p = true ->
    _track p = Some t ->
    truthy (isPaused p) = true ->
    _lastPosition p = Some x ->
    exists m : Q,
      position now p = Return (PFloat m) /\
      position now' p = Return (PFloat m) /\
      (m <= x)%Q /\ (m <= track_length t)%Q.
Proof.
  intros now now' p t x Hc Ht Hp Hx.
  exists (Qmin2 x (track_length t)).
  unfold position, isPlaying, isConnected. rewrite Hc, Ht, Hp, Hx.
  cbn. repeat split; apply Qmin2_bounds.
Qed.

Lemma position_paused_is_frozen_and_bounded_witness :
  let p := set__paused (PBool true) (heap (world_synced track60) 0%nat) in
  _connected p = true /\
  _track p = Some track60 /\
  truthy (isPaused p) = true /\
  _lastPosition p = Some (inject_Z 10000 / inject_Z 1000)%Q /\
  exists m : Q,
    position 1005 p = Return (PFloat m) /\
    position 2000 p = Return (PFloat m) /\
    (m <= inject_Z 10000 / inject_Z 1000)%Q /\ (m <= track_length track60)%Q.
Proof.
  split; [reflexivity|]. split; [reflexivity|]. split; [reflexivity|].
  split; [reflexivity|].
  exact (@position_paused_is_frozen_and_bounded 1005 2000
           (set__paused (PBool true) (heap (world_synced track60) 0%nat))
           track60 (inject_Z 10000 / inject_Z 1000)%Q
           eq_refl eq_refl eq_refl eq_refl).
Defined.

(** After [resume()], as after [pause()], a playing Player's [position]
    is the paused one: the snapshot position capped by the track's
    length, whatever the clock reads. *)
Theorem position_after_resume_does_not_advance :
  forall cls (self : ident) (w : World) (t : Track) (x now : Q),
    _connected (heap w self) = true ->
    _track (heap w self) = Some t ->
    _lastPosition (heap w self) = Some x ->
    position now (heap (snd (Player_resume cls self w)) self)
    = Return (PFloat (Qmin2 x (track_length t))) /\
    position now (heap (snd (Player_pause cls self w)) self)
    = Return (PFloat (Qmin2 x (track_length t))).
Proof.
  intros cls self w t x now Hc Ht Hx.
  unfold Player_resume, Player_pause.
  rewrite !togglePause_heap, !heap_upd_same.
  unfold position, isPlaying, isConnected. cbn. rewrite Hc, Ht, Hx. cbn. auto.
Qed.

Lemma position_after_resume_does_not_advance_witness :
  let w := world_synced track60 in
  _connected (heap w 0%nat) = true /\
  _track (heap w 0%nat) = Some track60 /\
  _lastPosition (heap w 0%nat) = Some (inject_Z 10000 / inject_Z 1000)%Q /\
  position 99999 (heap (snd (Player_resume Node_class 0%nat w)) 0%nat)
  = Return (PFloat (Qmin2 (inject_Z 10000 / inject_Z 1000) (track_length track60))) /\
  position 99999 (heap (snd (Player_pause Node_class 0%nat w)) 0%nat)
  = Return (PFloat (Qmin2 (inject_Z 10000 / inject_Z 1000) (track_length track60))).
Proof.
  split; [reflexivity|]. split; [reflexivity|]. split; [reflexivity|].
  exact (@position_after_resume_does_not_advance Node_class 0%nat
           (world_synced track60) track60 (inject_Z 10000 / inject_Z 1000)%Q 99999
           eq_refl eq_refl eq_refl).
Defined.

(* ===================================================================== *)
(** ** Further properties: voice state updates and channel moves         *)
(* ===================================================================== *)

(** The Player objects after [_sendVoiceUpdate] are those before. *)
Lemma sendVoiceUpdate_heap cls (self : ident) (w : World) :
  heap (snd (_sendVoiceUpdate cls self w)) = heap w.
Proof.
  unfold _sendVoiceUpdate, bind, get_player, lift. cbn [fst snd].
  destruct (set_eqb ["sessionId"; "event"] (dict_keys (_voiceState (heap w self))));
    [|reflexivity].
  destruct (py_subscript (PDict (_voiceState (heap w self))) (PStr "sessionId"));
    [|reflexivity].
  destruct (py_subscript (PDict (_voiceState (heap w self))) (PStr "event"));
    [|reflexivity].
  apply node_send_heap.
Qed.

(** A state update naming a channel the client cannot resolve raises
    AttributeError (from the log line that reads [channel.id]): the
    session id is already stored, the Player stays bound to its channel,
    and nothing is sent. *)
Theorem state_update_unknown_channel_raises :
  forall cls (self : ident) (w : World) (d : list (string * pyval))
         (sid cid : pyval),
    dict_get "session_id" d = Some sid ->
    dict_get "channel_id" d = Some cid ->
    is_None cid = false ->
    get_channel w cid = None ->
    let r := on_voice_state_update cls self (PDict d) w in
    fst r = Raise (AttributeError "NoneType" "id") /\
    channel (heap (snd r) self) = channel (heap w self) /\
    _voiceState (heap (snd r) self)
    = dict_set "sessionId" sid (_voiceState (heap w self)) /\
    node (snd r) = node w.
Proof.
  intros cls self w d sid cid Hs Hc Hn Hg. cbv zeta.
  run_player. cbn [py_subscript]. rewrite Hs, Hc. cbn [fst snd]. rewrite Hn.
  cbn [fst snd].
  replace (get_channel (set_heap _ w) cid) with (get_channel w cid)
    by (destruct cid; reflexivity).
  rewrite Hg. cbn [channel_neq raise fst snd heap set_heap node].
  rewrite heap_upd_same. repeat split.
Qed.

Lemma state_update_unknown_channel_raises_witness :
  let d := [("session_id", PStr "s1"); ("channel_id", PInt 77)] in
  dict_get "session_id" d = Some (PStr "s1") /\
  dict_get "channel_id" d = Some (PInt 77) /\
  is_None (PInt 77) = false /\
  get_channel world_fresh (PInt 77) = None /\
  let r := on_voice_state_update Node_class 0%nat (PDict d) world_fresh in
  fst r = Raise (AttributeError "NoneType" "id") /\
  channel (heap (snd r) 0%nat) = channel (heap world_fresh 0%nat) /\
  _voiceState (heap (snd r) 0%nat)
  = dict_set "sessionId" (PStr "s1") (_voiceState (heap world_fresh 0%nat)) /\
  node (snd r) = node world_fresh.
Proof.
  split; [reflexivity|]. split; [reflexivity|]. split; [reflexivity|].
  split; [reflexivity|].
  exact (@state_update_unknown_channel_raises Node_class 0%nat world_fresh
           [("session_id", PStr "s1"); ("channel_id", PInt 77)]
           (PStr "s1") (PInt 77) eq_refl eq_refl eq_refl eq_refl).
Defined.

(** A state update that lacks [session_id] raises KeyError and changes
    nothing; one that has it but lacks [channel_id] raises KeyError
    after the session id was stored. *)
Theorem state_update_missing_keys :
  forall cls (self : ident) (w : World) (d : list (string * pyval)) (sid : pyval),
    (dict_get "session_id" d = None ->
     on_voice_state_update cls self (PDict d) w
     = (Raise (KeyError "session_id"), w)) /\
    (dict_get "session_id" d = Some sid -> dict_get "channel_id" d = None ->
     let r := on_voice_state_update cls self (PDict d) w in
     fst r = Raise (KeyError "channel_id") /\
     _voiceState (heap (snd r) self)
     = dict_set "sessionId" sid (_voiceState (heap w self)) /\
     node (snd r) = node w).
Proof.
  intros cls self w d sid. split.
  - intros Hs. run_player. cbn [py_subscript]. rewrite Hs. reflexivity.
  - intros Hs Hc. cbv zeta. run_player. cbn [py_subscript]. rewrite Hs, Hc.
    cbn [fst snd heap set_heap node]. rewrite heap_upd_same. repeat split.
Qed.

Lemma state_update_missing_keys_witness :
  (dict_get "session_id" [("channel_id", PInt 10)] = None /\
   on_voice_state_update Node_class 0%nat (PDict [("channel_id", PInt 10)]) world_fresh
   = (Raise (KeyError "session_id"), world_fresh)) /\
  (dict_get "session_id" [("session_id", PStr "s1")] = Some (PStr "s1") /\
   dict_get "channel_id" [("session_id", PStr "s1")] = None /\
   let r := on_voice_state_update Node_class 0%nat
              (PDict [("session_id", PStr "s1")]) world_fresh in
   fst r = Raise (KeyError "channel_id") /\
   _voiceState (heap (snd r) 0%nat)
   = dict_set "sessionId" (PStr "s1") (_voiceState (heap world_fresh 0%nat)) /\
   node (snd r) = node world_fresh).
Proof.
  split.
  - split; [reflexivity|].
    exact (proj1 (state_update_missing_keys Node_class 0%nat world_fresh
                    [("channel_id", PInt 10)] PNone) eq_refl).
  - split; [reflexivity|]. split; [reflexivity|].
    exact (proj2 (state_update_missing_keys Node_class 0%nat world_fresh
                    [("session_id", PStr "s1")] (PStr "s1")) eq_refl eq_refl).
Defined.

Lemma find_channel_id (z : Z) (l : list VoiceChannel) (c : VoiceChannel) :
  find (fun c => channel_id c =? z) l = Some c -> channel_id c = z.
Proof.
  intros H. apply find_some in H. destruct H as (_ & H). now apply Z.eqb_eq.
Qed.

(** [moveTo] only asks the host for the move: the Player stays bound to
    its channel.  The binding follows when the state update for the
    target channel is delivered: from then on the Player's channel has
    the target's id, whatever the send of the voice update does. *)
Theorem moveTo_then_state_update_rebinds :
  forall cls (self : ident) (w : World) (target c : VoiceChannel)
         (d : list (string * pyval)) (sid : pyval),
    gateway_of w self = true ->
    dict_get "session_id" d = Some sid ->
    dict_get "channel_id" d = Some (PInt (channel_id target)) ->
    get_channel w (PInt (channel_id target)) = Some c ->
    let r1 := Player_moveTo self target w in
    let w2 := snd (on_voice_state_update cls self (PDict d) (snd r1)) in
    fst r1 = Return tt /\
    heap (snd r1) = heap w /\
    voice_calls (snd r1) = (voice_calls w ++ [(self, Some (channel_id target))])%list /\
    channel_id (channel (heap w2 self)) = channel_id target.
Proof.
  intros cls self w target c d sid Hg Hs Hc Hch. cbv zeta.
  unfold gateway_of in Hg.
  unfold Player_moveTo, change_voice_state. rewrite Hg. cbn [fst snd].
  split; [reflexivity|]. split; [reflexivity|]. split; [reflexivity|].
  pose proof (find_channel_id _ _ Hch) as Hid.
  unfold on_voice_state_update, bind, get_player, update_player, lift.
  cbn [py_subscript]. rewrite Hs, Hc.
  cbn [fst snd is_None heap set_heap set_voice_calls get_channel client_channels].
  cbn [get_channel] in Hch. rewrite Hch. rewrite !heap_upd_same.
  cbn [channel set__voiceState channel_neq].
  destruct (negb (channel_id c =? channel_id (channel (heap w self)))) eqn:E.
  - cbn [fst snd]. rewrite sendVoiceUpdate_heap. cbn [heap set_heap].
    rewrite !heap_upd_same. cbn [channel set_channel]. exact Hid.
  - cbn [ret fst snd]. rewrite sendVoiceUpdate_heap. cbn [heap set_heap].
    rewrite !heap_upd_same. cbn [channel set__voiceState].
    apply Bool.negb_false_iff, Z.eqb_eq in E. congruence.
Qed.

Lemma moveTo_then_state_update_rebinds_witness :
  let d := [("session_id", PStr "s1"); ("channel_id", PInt 30)] in
  gateway_of world_two_channels 0%nat = true /\
  dict_get "session_id" d = Some (PStr "s1") /\
  dict_get "channel_id" d = Some (PInt (channel_id chan_other)) /\
  get_channel world_two_channels (PInt (channel_id chan_other)) = Some chan_other /\
  let r1 := Player_moveTo 0%nat chan_other world_two_channels in
  let w2 := snd (on_voice_state_update Node_class 0%nat (PDict d) (snd r1)) in
  fst r1 = Return tt /\
  heap (snd r1) = heap world_two_channels /\
  voice_calls (snd r1) = [(0%nat, Some 30)] /\
  channel_id (channel (heap w2 0%nat)) = channel_id chan_other.
Proof.
  split; [reflexivity|]. split; [reflexivity|]. split; [reflexivity|].
  split; [reflexivity|].
  exact (@moveTo_then_state_update_rebinds Node_class 0%nat world_two_channels
           chan_other chan_other
           [("session_id", PStr "s1"); ("channel_id", PInt 30)] (PStr "s1")
           eq_refl eq_refl eq_refl eq_refl).
Defined.

(* ===================================================================== *)
(** ** Further properties: the Node                                      *)
(* ===================================================================== *)

(** A Node's websocket is created by the first [connect] and never
    dropped.  On a node without a websocket [connect] returns, having
    given the node a websocket and changed nothing else.  Once there is
    a websocket, [connect] raises WebsocketAlreadyExists and changes
    nothing: so a second [connect] always raises, and so does a
    [connect] after a [disconnect] that returned, because [disconnect]
    closes the connection but keeps the websocket object. *)
Theorem Node_connects_only_once :
  forall (w : World),
    (_websocket (node w) = None ->
     fst (Node_connect w) = Return tt /\
     _websocket (node (snd (Node_connect w))) <> None /\
     _players (node (snd (Node_connect w))) = _players (node w) /\
     heap (snd (Node_connect w)) = heap w /\
     voice_calls (snd (Node_connect w)) = voice_calls w) /\
    (forall ws, _websocket (node w) = Some ws ->
                Node_connect w = (Raise WebsocketAlreadyExists, w)) /\
    (let w1 := snd (Node_connect w) in
     _websocket (node w1) <> None /\
     Node_connect w1 = (Raise WebsocketAlreadyExists, w1)) /\
    (forall w' : World,
        Node_disconnect w = Some (Return tt, w') ->
        _websocket (node w') <> None /\
        Node_connect w' = (Raise WebsocketAlreadyExists, w')).
Proof.
  intros w. split; [|split; [|split]].
  - intros H. unfold Node_connect. rewrite H. cbn. repeat split. discriminate.
  - intros ws H. unfold Node_connect. rewrite H. reflexivity.
  - cbv zeta. destruct (_websocket (node w)) as [ws|] eqn:E.
    + assert (H : Node_connect w = (Raise WebsocketAlreadyExists, w))
        by (unfold Node_connect; rewrite E; reflexivity).
      rewrite H. cbn [snd]. rewrite H, E. split; [discriminate | reflexivity].
    + assert (H : Node_connect w
                  = (Return tt,
                     set_node (mkNode (_players (node w))
                                 (Some (mkWebsocket false false []))) w))
        by (unfold Node_connect; rewrite E; reflexivity).
      rewrite H. cbn [snd]. unfold Node_connect. cbn [node set_node _websocket].
      split; [discriminate | reflexivity].
  - intros w' H. unfold Node_disconnect in H.
    destruct (disconnect_loop _ 0 w) as [[[u|e] w1]|]; try discriminate.
    unfold close_websocket in H.
    destruct (_websocket (node w1)) as [ws|] eqn:E; [|discriminate].
    injection H as <-. unfold Node_connect. cbn [node set_node _websocket].
    split; [discriminate | reflexivity].
Qed.

Lemma Node_connects_only_once_witness :
  (_websocket (node world_unconnected) = None /\
   fst (Node_connect world_unconnected) = Return tt /\
   _websocket (node (snd (Node_connect world_unconnected))) <> None /\
   _players (node (snd (Node_connect world_unconnected)))
   = _players (node world_unconnected) /\
   heap (snd (Node_connect world_unconnected)) = heap world_unconnected /\
   voice_calls (snd (Node_connect world_unconnected)) = voice_calls world_unconnected) /\
  (_websocket (node world_fresh) = Some open_websocket /\
   Node_connect world_fresh = (Raise WebsocketAlreadyExists, world_fresh)) /\
  (let w1 := snd (Node_connect world_unconnected) in
   _websocket (node w1) <> None /\
   Node_connect w1 = (Raise WebsocketAlreadyExists, w1)) /\
  exists w',
    Node_disconnect world_two_up = Some (Return tt, w') /\
    _websocket (node w') <> None /\
    Node_connect w' = (Raise WebsocketAlreadyExists, w').
Proof.
  split; [|split; [|split]].
  - split; [reflexivity|].
    exact (proj1 (Node_connects_only_once world_unconnected) eq_refl).
  - split; [reflexivity|].
    exact (proj1 (proj2 (Node_connects_only_once world_fresh)) _ eq_refl).
  - exact (proj1 (proj2 (proj2 (Node_connects_only_once world_unconnected)))).
  - eexists. split; [reflexivity|].
    exact (proj2 (proj2 (proj2 (Node_connects_only_once world_two_up))) _ eq_refl).
Defined.

(** [Node.disconnect] on a node that was never connected always
    raises: whatever part of the fan-out ran, the call ends in an
    exception, and no run of it returns. *)
Theorem Node_disconnect_without_websocket_raises :
  forall (w : World),
    _websocket (node w) = None ->
    exists e w', Node_disconnect w = Some (Raise e, w').
Proof.
  intros w Hws. unfold Node_disconnect.
  destruct (@disconnect_loop_spec (S (List.length (_players (node w)))) 0%nat w)
    as (r & w' & calls & Hrun & Hkeep & _); [lia|].
  rewrite Hrun. destruct r as [u|e].
  - unfold close_websocket. rewrite Hkeep, Hws. eauto.
  - eauto.
Qed.

Lemma Node_disconnect_without_websocket_raises_witness :
  _websocket (node world_unconnected) = None /\
  exists e w', Node_disconnect world_unconnected = Some (Raise e, w').
Proof.
  split; [reflexivity|].
  exact (@Node_disconnect_without_websocket_raises world_unconnected eq_refl).
Defined.

Lemma list_remove_middle (a : ident) (pre t : list ident) :
  ~ In a pre -> list_remove a (pre ++ a :: t) = Some (pre ++ t)%list.
Proof.
  induction pre as [|y pre IH]; intros Hn; cbn [list_remove app].
  - now rewrite Nat.eqb_refl.
  - destruct (Nat.eqb a y) eqn:E.
    + apply Nat.eqb_eq in E. subst y. exfalso. apply Hn. now left.
    + rewrite IH; [reflexivity|]. intros Hin. apply Hn. now right.
Qed.

Lemma alternate_In (k : bool) (l : list ident) (q : ident) :
  In q (alternate k l) -> In q l.
Proof.
  revert k. induction l as [|a t IH]; intros k; cbn [alternate]; [auto|].
  destruct k.
  - intros [H|H]; [now left | right; eapply IH; eauto].
  - intros H. right. eapply IH; eauto.
Qed.

Lemma nth_error_app_length (pre : list ident) (a : ident) (t : list ident) :
  nth_error (pre ++ a :: t) (List.length pre) = Some a.
Proof. induction pre as [|y pre IH]; [reflexivity | exact IH]. Qed.

Lemma nth_error_past (l : list ident) (n : nat) :
  (List.length l <= n)%nat -> nth_error l n = None.
Proof. intros H. now apply nth_error_None. Qed.

Lemma loop_alternates_nil : loop_alternates [].
Proof.
  intros pre w fuel Hl _ _ Hfuel. destruct fuel as [|fuel]; [lia|].
  exists w. cbn [disconnect_loop]. rewrite Hl, app_nil_r.
  rewrite nth_error_past by lia. cbn [alternate leave_calls map].
  rewrite !app_nil_r. repeat split; auto. intros q [].
Qed.

Lemma loop_alternates_step (a : ident) (rest : list ident) :
  (forall pre w fuel,
      _players (node w) = (pre ++ rest)%list ->
      NoDup (pre ++ rest) ->
      (forall q, In q rest -> gateway_of w q = true) ->
      (List.length rest < fuel)%nat ->
      exists w',
        disconnect_loop fuel (S (List.length pre)) w = Some (Return tt, w') /\
        _players (node w') = (pre ++ alternate true rest)%list /\
        voice_calls w' = (voice_calls w ++ leave_calls (alternate false rest))%list /\
        _websocket (node w') = _websocket (node w) /\
        (forall q, In q (alternate false rest) -> _connected (heap w' q) = false) /\
        (forall q, ~ In q (alternate false rest) -> heap w' q = heap w q)) ->
  loop_alternates (a :: rest).
Proof.
  intros Hskip pre w fuel Hl Hnd Hg Hfuel.
  destruct fuel as [|fuel]; [cbn in Hfuel; lia|].
  cbn [disconnect_loop]. rewrite Hl, nth_error_app_length.
  assert (Ha : ~ In a pre /\ ~ In a rest).
  { apply NoDup_remove_2 in Hnd. split; intros H; apply Hnd, in_or_app; auto. }
  destruct Ha as (Hapre & Harest).
  assert (Hga : gateway_of w a = true) by (apply Hg; now left).
  assert (Hrem : list_remove a (_players (node w)) = Some (pre ++ rest)%list)
    by (rewrite Hl; now apply list_remove_middle).
  rewrite (Player_disconnect_done a w Hga Hrem).
  match goal with |- context [disconnect_loop fuel _ ?w1] => set (w1' := w1) end.
  destruct (Hskip pre w1' fuel) as (w' & Hrun & Hp & Hc & Hws & Hoff & Hsame).
  - reflexivity.
  - now apply NoDup_remove_1 in Hnd.
  - intros q Hq. unfold gateway_of, w1'. cbn [heap set_heap]. unfold heap_upd.
    destruct (Nat.eqb q a) eqn:E.
    + apply Nat.eqb_eq in E. subst q. contradiction.
    + apply Hg. now right.
  - cbn in Hfuel. lia.
  - exists w'. split; [exact Hrun|]. cbn [alternate].
    split; [exact Hp|]. split.
    { rewrite Hc. unfold w1'. cbn [voice_calls set_heap set_node set_voice_calls].
      unfold leave_calls. cbn [map]. now rewrite <- app_assoc. }
    split; [rewrite Hws; reflexivity|]. split.
    + intros q [Hq|Hq].
      * subst q. rewrite Hsame.
        -- unfold w1'. cbn [heap set_heap]. now rewrite heap_upd_same.
        -- intros Hin. apply Harest. eapply alternate_In; eauto.
      * now apply Hoff.
    + intros q Hq. rewrite Hsame.
      * unfold w1'. cbn [heap set_heap]. unfold heap_upd.
        destruct (Nat.eqb q a) eqn:E; [|reflexivity].
        apply Nat.eqb_eq in E. subst q. exfalso. apply Hq. now left.
      * intros Hin. apply Hq. now right.
Qed.

Lemma loop_alternates_all (rest : list ident) :
  loop_alternates rest /\ forall a, loop_alternates (a :: rest).
Proof.
  induction rest as [|b rest (IH0 & IH1)].
  - split; [apply loop_alternates_nil|].
    intros a. apply loop_alternates_step.
    intros pre w fuel Hl _ _ Hfuel. rewrite app_nil_r in Hl. exists w.
    cbn [alternate leave_calls map]. rewrite !app_nil_r.
    destruct fuel as [|fuel]; [cbn in Hfuel; lia|].
    cbn [disconnect_loop]. rewrite Hl, nth_error_past by lia.
    repeat split; auto. intros q [].
  - split; [apply IH1|].
    intros a. apply loop_alternates_step.
    intros pre w fuel Hl Hnd Hg Hfuel.
    destruct (IH0 (pre ++ [b])%list w fuel) as (w' & Hrun & Hp & Hc & Hws & Hoff & Hsame).
    + rewrite Hl, <- app_assoc. reflexivity.
    + rewrite <- app_assoc. exact Hnd.
    + intros q Hq. apply Hg. now right.
    + cbn in Hfuel. lia.
    + exists w'. rewrite length_app, Nat.add_comm in Hrun. cbn [List.length Nat.add] in Hrun.
      split; [exact Hrun|]. cbn [alternate]. rewrite <- app_assoc in Hp.
      repeat split; assumption.
Qed.

Lemma alternate_false_nil (l : list ident) :
  alternate false l = [] <-> (List.length l <= 1)%nat.
Proof.
  destruct l as [|a [|b t]]; cbn; split; intros H; try reflexivity; try lia.
  discriminate.
Qed.

(** [Node.disconnect] on distinct attached Players whose host calls all
    succeed: it returns, having called [disconnect] on the Players at
    positions 0, 2, 4, ... of the list only.  Those are detached and
    marked disconnected; the Players at positions 1, 3, 5, ... are
    never called, stay attached in their order and are untouched.  The
    listener is cancelled and the connection closed.  So the list ends
    empty exactly when at most one Player was attached. *)
Theorem Node_disconnect_reaches_every_other_player :
  forall (w : World) (ws : Websocket),
    _websocket (node w) = Some ws ->
    NoDup (_players (node w)) ->
    (forall q, In q (_players (node w)) -> gateway_of w q = true) ->
    exists w',
      Node_disconnect w = Some (Return tt, w') /\
      _players (node w') = alternate false (_players (node w)) /\
      voice_calls w'
      = (voice_calls w ++ leave_calls (alternate true (_players (node w))))%list /\
      (forall q, In q (alternate true (_players (node w))) ->
                 _connected (heap w' q) = false) /\
      (forall q, ~ In q (alternate true (_players (node w))) ->
                 heap w' q = heap w q) /\
      _websocket (node w') = Some (mkWebsocket true true (sent ws)) /\
      (_players (node w') = [] <-> (List.length (_players (node w)) <= 1)%nat).
Proof.
  intros w ws Hws Hnd Hg.
  destruct (proj1 (loop_alternates_all (_players (node w))) [] w
              (S (List.length (_players (node w)))))
    as (w1 & Hrun & Hp & Hc & Hkeep & Hoff & Hsame); auto.
  unfold Node_disconnect. cbn [List.length] in Hrun. rewrite Hrun.
  unfold close_websocket. rewrite Hkeep, Hws.
  eexists. split; [reflexivity|].
  cbn [node set_node _players voice_calls heap _websocket].
  cbn [app] in Hp. rewrite Hp.
  repeat split; try assumption; apply alternate_false_nil.
Qed.

Lemma Node_disconnect_reaches_every_other_player_witness :
  _websocket (node world_five) = Some open_websocket /\
  NoDup (_players (node world_five)) /\
  (forall q, In q (_players (node world_five)) -> gateway_of world_five q = true) /\
  exists w',
    Node_disconnect world_five = Some (Return tt, w') /\
    _players (node w') = [2%nat; 4%nat] /\
    voice_calls w' = [(1%nat, None); (3%nat, None); (5%nat, None)] /\
    (forall q, In q [1%nat; 3%nat; 5%nat] -> _connected (heap w' q) = false) /\
    (forall q, ~ In q [1%nat; 3%nat; 5%nat] -> heap w' q = heap world_five q) /\
    _websocket (node w') = Some (mkWebsocket true true []) /\
    (_players (node w') = [] <-> (5 <= 1)%nat).
Proof.
  assert (Hnd : NoDup (_players (node world_five))).
  { cbn. repeat constructor; cbn; intuition discriminate. }
  assert (Hg : forall q, In q (_players (node world_five)) ->
                         gateway_of world_five q = true)
    by (intros q _; reflexivity).
  split; [reflexivity|]. split; [exact Hnd|]. split; [exact Hg|].
  exact (@Node_disconnect_reaches_every_other_player world_five open_websocket
           eq_refl Hnd Hg).
Defined.

(* ===================================================================== *)
(** ** Further properties: track resolution                              *)
(* ===================================================================== *)

Lemma getTracks_search (cls : PyClass) (d : list (string * pyval))
      (elems : list pyval) (tis : list (pyval * pyval)) :
  loadType_of d = PStr "SEARCH_RESULT" ->
  dict_get "tracks" d = Some (PList elems) ->
  map entry_fields elems = map Some tis ->
  getTracks cls 200 (PDict d)
  = Return (PList (map (construct_pair (cls_name cls)) tis)).
Proof.
  intros Hlt Htr He. run_getTracks.
  rewrite loadType_of_get, Hlt. cbn [obind eq_str].
  cbn [String.eqb Ascii.eqb Bool.eqb].
  cbn [py_subscript]. rewrite Htr. cbn [obind py_iter].
  rewrite (search_comprehension (cls_name cls) elems tis He). reflexivity.
Qed.

Lemma getTracks_falls_through (cls : PyClass) (d : list (string * pyval)) :
  existsb (eq_str (loadType_of d)) known_loadTypes = false ->
  getTracks cls 200 (PDict d) = Return PNone.
Proof.
  intros H. cbn [existsb known_loadTypes] in H.
  repeat (apply Bool.orb_false_elim in H; destruct H as [? H]).
  run_getTracks. rewrite loadType_of_get. cbn [obind].
  repeat match goal with
         | Hx : eq_str (loadType_of d) _ = false |- _ => rewrite Hx; clear Hx
         end.
  reflexivity.
Qed.

(** [processPartialResource] on a search response of status 200 that
    has at least one entry and whose entries all have [track] and
    [info] returns the instance built from the first entry, the
    server's first result.  (Every entry has to be well formed, not
    only the first: [getTracks] builds the whole list before the first
    element is taken.) *)
Theorem processPartialResource_takes_first_result :
  forall (cls : PyClass) (d : list (string * pyval)) (e : pyval)
         (rest : list pyval) (t i : pyval) (tis : list (pyval * pyval)),
    loadType_of d = PStr "SEARCH_RESULT" ->
    dict_get "tracks" d = Some (PList (e :: rest)) ->
    map entry_fields (e :: rest) = map Some ((t, i) :: tis) ->
    processPartialResource cls 200 (PDict d)
    = Return (construct (cls_name cls) t i).
Proof.
  intros cls d e rest t i tis Hlt Htr He. unfold processPartialResource.
  rewrite (@getTracks_search cls d _ _ Hlt Htr He). reflexivity.
Qed.

Lemma processPartialResource_takes_first_result_witness :
  let d := response "SEARCH_RESULT" [entry "a" "A"; entry "b" "B"] in
  loadType_of d = PStr "SEARCH_RESULT" /\
  dict_get "tracks" d = Some (PList [entry "a" "A"; entry "b" "B"]) /\
  processPartialResource track_cls 200 (PDict d)
  = Return (PObj "YoutubeTrack" [PStr "a"; PDict [("title", PStr "A")]]).
Proof.
  split; [reflexivity|]. split; [reflexivity|].
  exact (@processPartialResource_takes_first_result track_cls
           (response "SEARCH_RESULT" [entry "a" "A"; entry "b" "B"])
           (entry "a" "A") [entry "b" "B"] (PStr "a") (PDict [("title", PStr "A")])
           [(PStr "b", PDict [("title", PStr "B")])]
           eq_refl eq_refl eq_refl).
Defined.

(** [processPartialResource] has no result for "nothing found": when
    [getTracks] returns [None] (NO_MATCHES, or a load type it does not
    know) the indexing [temp[0]] raises TypeError; on a search response
    with no entries it raises IndexError; and the errors of [getTracks]
    (LavalinkException on a status other than 200, LoadTrackError on
    LOAD_FAILED) pass through. *)
Theorem processPartialResource_failures :
  forall (cls : PyClass) (d : list (string * pyval)),
    (loadType_of d = PStr "NO_MATCHES" ->
     processPartialResource cls 200 (PDict d) = Raise TypeError) /\
    (existsb (eq_str (loadType_of d)) known_loadTypes = false ->
     processPartialResource cls 200 (PDict d) = Raise TypeError) /\
    (loadType_of d = PStr "SEARCH_RESULT" -> dict_get "tracks" d = Some (PList []) ->
     processPartialResource cls 200 (PDict d) = Raise IndexError) /\
    (loadType_of d = PStr "LOAD_FAILED" ->
     processPartialResource cls 200 (PDict d) = Raise (LoadTrackError (PDict d))) /\
    (forall status : Z, status <> 200 ->
     processPartialResource cls status (PDict d) = Raise LavalinkException).
Proof.
  intros cls d. unfold processPartialResource. repeat split.
  - intros Hlt. run_getTracks. rewrite loadType_of_get, Hlt. reflexivity.
  - intros H. rewrite (@getTracks_falls_through cls d H). reflexivity.
  - intros Hlt Htr.
    rewrite (@getTracks_search cls d [] [] Hlt Htr eq_refl). reflexivity.
  - intros Hlt. run_getTracks. rewrite loadType_of_get, Hlt. reflexivity.
  - intros status Hst. unfold getTracks.
    destruct (status =? 200) eqn:E; [apply Z.eqb_eq in E; contradiction|].
    reflexivity.
Qed.

Lemma processPartialResource_failures_witness :
  (loadType_of (response "NO_MATCHES" []) = PStr "NO_MATCHES" /\
   processPartialResource track_cls 200 (PDict (response "NO_MATCHES" []))
   = Raise TypeError) /\
  (existsb (eq_str (loadType_of (response "TRACK_LOADING" []))) known_loadTypes = false /\
   processPartialResource track_cls 200 (PDict (response "TRACK_LOADING" []))
   = Raise TypeError) /\
  (loadType_of (response "SEARCH_RESULT" []) = PStr "SEARCH_RESULT" /\
   dict_get "tracks" (response "SEARCH_RESULT" []) = Some (PList []) /\
   processPartialResource track_cls 200 (PDict (response "SEARCH_RESULT" []))
   = Raise IndexError) /\
  (loadType_of (response "LOAD_FAILED" []) = PStr "LOAD_FAILED" /\
   processPartialResource track_cls 200 (PDict (response "LOAD_FAILED" []))
   = Raise (LoadTrackError (PDict (response "LOAD_FAILED" [])))) /\
  (500 <> 200 /\
   processPartialResource track_cls 500 (PDict (response "SEARCH_RESULT" []))
   = Raise LavalinkException).
Proof.
  split; [|split; [|split; [|split]]].
  - split; [reflexivity|].
    exact (proj1 (processPartialResource_failures track_cls
                    (response "NO_MATCHES" [])) eq_refl).
  - split; [reflexivity|].
    exact (proj1 (proj2 (processPartialResource_failures track_cls
                           (response "TRACK_LOADING" []))) eq_refl).
  - split; [reflexivity|]. split; [reflexivity|].
    exact (proj1 (proj2 (proj2 (processPartialResource_failures track_cls
                                  (response "SEARCH_RESULT" []))))
             eq_refl eq_refl).
  - split; [reflexivity|].
    exact (proj1 (proj2 (proj2 (proj2 (processPartialResource_failures track_cls
                                         (response "LOAD_FAILED" []))))) eq_refl).
  - split; [discriminate|].
    exact (proj2 (proj2 (proj2 (proj2 (processPartialResource_failures track_cls
                                         (response "SEARCH_RESULT" [])))))
             500 ltac:(discriminate)).
Defined.

(** A search response is converted all or nothing: if an entry lacks
    [track], [getTracks] raises KeyError for it and returns no list,
    however many well-formed entries come before it. *)
Theorem getTracks_search_is_all_or_nothing :
  forall (cls : PyClass) (d : list (string * pyval)) (good : list pyval)
         (tis : list (pyval * pyval)) (bad : list (string * pyval))
         (rest : list pyval),
    loadType_of d = PStr "SEARCH_RESULT" ->
    dict_get "tracks" d = Some (PList (good ++ PDict bad :: rest)) ->
    map entry_fields good = map Some tis ->
    dict_get "track" bad = None ->
    getTracks cls 200 (PDict d) = Raise (KeyError "track").
Proof.
  intros cls d good tis bad rest Hlt Htr Hgood Hbad. run_getTracks.
  rewrite loadType_of_get, Hlt. cbn [obind eq_str].
  cbn [String.eqb Ascii.eqb Bool.eqb].
  cbn [py_subscript]. rewrite Htr. cbn [obind py_iter].
  assert (E : mapM (fun element =>
                      obind (py_subscript element (PStr "track")) (fun t =>
                      obind (py_subscript element (PStr "info")) (fun i =>
                      Return (construct (cls_name cls) t i))))
                   (good ++ PDict bad :: rest)
              = Raise (KeyError "track")).
  { clear Htr. revert tis Hgood.
    induction good as [|e good IH]; intros tis Hgood.
    - cbn [app mapM py_subscript]. rewrite Hbad. reflexivity.
    - destruct tis as [|[t i] tis]; [discriminate|].
      cbn [map] in Hgood. injection Hgood as He Hrest.
      destruct (entry_fields_subscript e He) as (Ht & Hi).
      cbn [app mapM]. rewrite Ht, Hi. cbn [obind].
      rewrite (IH tis Hrest). reflexivity. }
  rewrite E. reflexivity.
Qed.

Lemma getTracks_search_is_all_or_nothing_witness :
  let d := response "SEARCH_RESULT"
             [entry "a" "A"; PDict [("info", PDict [])]; entry "c" "C"] in
  loadType_of d = PStr "SEARCH_RESULT" /\
  dict_get "tracks" d
  = Some (PList ([entry "a" "A"] ++ PDict [("info", PDict [])] :: [entry "c" "C"])) /\
  dict_get "track" [("info", PDict [])] = None /\
  getTracks track_cls 200 (PDict d) = Raise (KeyError "track").
Proof.
  split; [reflexivity|]. split; [reflexivity|]. split; [reflexivity|].
  exact (@getTracks_search_is_all_or_nothing track_cls
           (response "SEARCH_RESULT"
              [entry "a" "A"; PDict [("info", PDict [])]; entry "c" "C"])
           [entry "a" "A"] [(PStr "a", PDict [("title", PStr "A")])]
           [("info", PDict [])] [entry "c" "C"]
           eq_refl eq_refl eq_refl eq_refl).
Defined.

(** A playlist response given to a class without [_trackCls]: with at
    least one entry [getTracks] raises AttributeError on the class; with
    no entry the attribute is never read and the call returns the
    collection with an empty track list. *)
Theorem getTracks_playlist_needs_trackCls :
  forall (cls : PyClass) (d pi : list (string * pyval)) (name e : pyval)
         (rest : list pyval),
    loadType_of d = PStr "PLAYLIST_LOADED" ->
    dict_get "playlistInfo" d = Some (PDict pi) ->
    dict_get "name" pi = Some name ->
    cls__trackCls cls = None ->
    (dict_get "tracks" d = Some (PList (e :: rest)) ->
     getTracks cls 200 (PDict d) = Raise (AttributeError (cls_name cls) "_trackCls")) /\
    (dict_get "tracks" d = Some (PList []) ->
     getTracks cls 200 (PDict d) = Return (construct (cls_name cls) name (PList []))).
Proof.
  intros cls d pi name e rest Hlt Hpi Hname Htc. split; intros Htr.
  - run_getTracks. rewrite loadType_of_get, Hlt. cbn [obind eq_str].
    cbn [String.eqb Ascii.eqb Bool.eqb].
    cbn [py_subscript]. rewrite Hpi. cbn [obind py_subscript]. rewrite Hname, Htr.
    cbn [obind py_iter mapM]. unfold trackCls_of. rewrite Htc. reflexivity.
  - run_getTracks. rewrite loadType_of_get, Hlt. cbn [obind eq_str].
    cbn [String.eqb Ascii.eqb Bool.eqb].
    cbn [py_subscript]. rewrite Hpi. cbn [obind py_subscript]. rewrite Hname, Htr.
    reflexivity.
Qed.

Lemma getTracks_playlist_needs_trackCls_witness :
  (let d := response "PLAYLIST_LOADED" [entry "a" "A"] in
   loadType_of d = PStr "PLAYLIST_LOADED" /\
   dict_get "playlistInfo" d = Some (PDict [("name", PStr "mix")]) /\
   cls__trackCls track_cls = None /\
   getTracks track_cls 200 (PDict d)
   = Raise (AttributeError "YoutubeTrack" "_trackCls")) /\
  (let d := response "PLAYLIST_LOADED" [] in
   getTracks track_cls 200 (PDict d)
   = Return (PObj "YoutubeTrack" [PStr "mix"; PList []])).
Proof.
  split.
  - split; [reflexivity|]. split; [reflexivity|]. split; [reflexivity|].
    exact (proj1 (@getTracks_playlist_needs_trackCls track_cls
                    (response "PLAYLIST_LOADED" [entry "a" "A"])
                    [("name", PStr "mix")] (PStr "mix") (entry "a" "A") []
                    eq_refl eq_refl eq_refl eq_refl) eq_refl).
  - exact (proj2 (@getTracks_playlist_needs_trackCls track_cls
                    (response "PLAYLIST_LOADED" [])
                    [("name", PStr "mix")] (PStr "mix") PNone []
                    eq_refl eq_refl eq_refl eq_refl) eq_refl).
Defined.

(* ===================================================================== *)
(** ** Further properties: events                                        *)
(* ===================================================================== *)

(** Whenever an event is constructed, its payload has exactly the
    keyword names of the listener it is dispatched to, in this order,
    starting with the Player it was given: (player, track) for
    track_start, (player, track, reason) for track_end, (player, track,
    exception) for track_exception, (player, track, threshold) for
    track_stuck and (player, reason, code, byRemote) for
    websocket_closed. *)
Theorem event_payload_names :
  forall (player track data : pyval),
    TrackStartEvent player track
    = Return (mkEvent "track_start" [("player", player); ("track", track)]) /\
    (forall e, TrackEndEvent player track data = Return e ->
               event_name e = "track_end" /\
               dict_keys (_payload e) = ["player"; "track"; "reason"] /\
               dict_get "player" (_payload e) = Some player /\
               dict_get "track" (_payload e) = Some track) /\
    (forall e, TrackExceptionEvent player track data = Return e ->
               event_name e = "track_exception" /\
               dict_keys (_payload e) = ["player"; "track"; "exception"] /\
               dict_get "player" (_payload e) = Some player /\
               dict_get "track" (_payload e) = Some track) /\
    (forall e, TrackStuckEvent player track data = Return e ->
               event_name e = "track_stuck" /\
               dict_keys (_payload e) = ["player"; "track"; "threshold"] /\
               dict_get "player" (_payload e) = Some player /\
               dict_get "track" (_payload e) = Some track) /\
    (forall e, WebsocketClosedEvent player data = Return e ->
               event_name e = "websocket_closed" /\
               dict_keys (_payload e) = ["player"; "reason"; "code"; "byRemote"] /\
               dict_get "player" (_payload e) = Some player).
Proof.
  intros player track data. split; [reflexivity|].
  split; [|split; [|split]]; intros e H; revert H;
    unfold TrackEndEvent, TrackExceptionEvent, TrackStuckEvent, WebsocketClosedEvent;
    repeat match goal with
           | |- context [obind ?o _] =>
               let x := fresh "x" in destruct o as [x|]; cbn [obind]
           | |- context [if ?b then _ else _] => destruct b
           end;
    try discriminate;
    intros H; injection H as <-; repeat split.
Qed.

Lemma event_payload_names_witness :
  let data := PDict [("reason", PStr "FINISHED"); ("code", PInt 4006);
                     ("byRemote", PBool true); ("thresholdMs", PInt 10000);
                     ("exception", PDict [("message", PStr "boom")])] in
  exists e1 e2 e3 e4,
    TrackEndEvent player_ref track_ref data = Return e1 /\
    dict_keys (_payload e1) = ["player"; "track"; "reason"] /\
    TrackExceptionEvent player_ref track_ref data = Return e2 /\
    dict_keys (_payload e2) = ["player"; "track"; "exception"] /\
    TrackStuckEvent player_ref track_ref data = Return e3 /\
    dict_keys (_payload e3) = ["player"; "track"; "threshold"] /\
    WebsocketClosedEvent player_ref data = Return e4 /\
    dict_keys (_payload e4) = ["player"; "reason"; "code"; "byRemote"].
Proof.
  cbv zeta.
  pose proof (event_payload_names player_ref track_ref
                (PDict [("reason", PStr "FINISHED"); ("code", PInt 4006);
                        ("byRemote", PBool true); ("thresholdMs", PInt 10000);
                        ("exception", PDict [("message", PStr "boom")])]))
    as (_ & H1 & H2 & H3 & H4).
  eexists _, _, _, _.
  split; [reflexivity|]. split; [exact (proj1 (proj2 (H1 _ eq_refl)))|].
  split; [reflexivity|]. split; [exact (proj1 (proj2 (H2 _ eq_refl)))|].
  split; [reflexivity|]. split; [exact (proj1 (proj2 (H3 _ eq_refl)))|].
  split; [reflexivity|]. exact (proj1 (proj2 (H4 _ eq_refl))).
Defined.

(** The exception detail of a track_exception event: an [error] field
    that is true as a truth value wins, also over an [exception] field
    that is present as well; a missing or false [error] (for instance
    an empty string) makes the event take [exception]; and with neither,
    construction raises KeyError for [exception]. *)
Theorem TrackExceptionEvent_normalises_detail :
  forall (player track : pyval) (d : list (string * pyval)) (err x : pyval),
    let e0 := mkEvent "track_exception" [("player", player); ("track", track)] in
    (dict_get "error" d = Some err -> truthy err = true ->
     TrackExceptionEvent player track (PDict d)
     = Return (payload_set "exception" err e0)) /\
    ((dict_get "error" d = None \/ (dict_get "error" d = Some err /\ truthy err = false)) ->
     dict_get "exception" d = Some x ->
     TrackExceptionEvent player track (PDict d)
     = Return (payload_set "exception" x e0)) /\
    ((dict_get "error" d = None \/ (dict_get "error" d = Some err /\ truthy err = false)) ->
     dict_get "exception" d = None ->
     TrackExceptionEvent player track (PDict d) = Raise (KeyError "exception")).
Proof.
  intros player track d err x e0. unfold TrackExceptionEvent. cbn [py_get obind].
  repeat split.
  - intros He Ht. rewrite He, Ht. cbn [py_subscript]. rewrite He. reflexivity.
  - intros [He|(He & Ht)] Hx; rewrite He; cbn [truthy]; try rewrite Ht;
      cbn [py_subscript]; rewrite Hx; reflexivity.
  - intros [He|(He & Ht)] Hx; rewrite He; cbn [truthy]; try rewrite Ht;
      cbn [py_subscript]; rewrite Hx; reflexivity.
Qed.

Lemma TrackExceptionEvent_normalises_detail_witness :
  (let d := [("error", PStr "old"); ("exception", PStr "new")] in
   dict_get "error" d = Some (PStr "old") /\ truthy (PStr "old") = true /\
   TrackExceptionEvent player_ref track_ref (PDict d)
   = Return (mkEvent "track_exception"
               [("player", player_ref); ("track", track_ref);
                ("exception", PStr "old")])) /\
  (let d := [("error", PStr ""); ("exception", PStr "new")] in
   dict_get "error" d = Some (PStr "") /\ truthy (PStr "") = false /\
   dict_get "exception" d = Some (PStr "new") /\
   TrackExceptionEvent player_ref track_ref (PDict d)
   = Return (mkEvent "track_exception"
               [("player", player_ref); ("track", track_ref);
                ("exception", PStr "new")])) /\
  (let d := [("type", PStr "TrackExceptionEvent")] in
   dict_get "error" d = None /\ dict_get "exception" d = None /\
   TrackExceptionEvent player_ref track_ref (PDict d) = Raise (KeyError "exception")).
Proof.
  split; [|split].
  - split; [reflexivity|]. split; [reflexivity|].
    exact (proj1 (TrackExceptionEvent_normalises_detail player_ref track_ref
                    [("error", PStr "old"); ("exception", PStr "new")]
                    (PStr "old") PNone) eq_refl eq_refl).
  - split; [reflexivity|]. split; [reflexivity|]. split; [reflexivity|].
    exact (proj1 (proj2 (TrackExceptionEvent_normalises_detail player_ref track_ref
                           [("error", PStr ""); ("exception", PStr "new")]
                           (PStr "") (PStr "new")))
             (or_intror (conj eq_refl eq_refl)) eq_refl).
  - split; [reflexivity|]. split; [reflexivity|].
    exact (proj2 (proj2 (TrackExceptionEvent_normalises_detail player_ref track_ref
                           [("type", PStr "TrackExceptionEvent")] PNone PNone))
             (or_introl eq_refl) eq_refl).
Defined.

(** An event whose raw data lacks a field it reads is not constructed:
    the constructor raises KeyError naming the first field that is
    missing, in the order the constructor reads them. *)
Theorem event_missing_field_raises :
  forall (player track : pyval) (d : list (string * pyval)),
    (dict_get "reason" d = None ->
     TrackEndEvent player track (PDict d) = Raise (KeyError "reason") /\
     WebsocketClosedEvent player (PDict d) = Raise (KeyError "reason")) /\
    (dict_get "thresholdMs" d = None ->
     TrackStuckEvent player track (PDict d) = Raise (KeyError "thresholdMs")) /\
    (forall r, dict_get "reason" d = Some r -> dict_get "code" d = None ->
     WebsocketClosedEvent player (PDict d) = Raise (KeyError "code")) /\
    (forall r c, dict_get "reason" d = Some r -> dict_get "code" d = Some c ->
     dict_get "byRemote" d = None ->
     WebsocketClosedEvent player (PDict d) = Raise (KeyError "byRemote")).
Proof.
  intros player track d.
  unfold TrackEndEvent, TrackStuckEvent, WebsocketClosedEvent. cbn [py_subscript].
  split; [|split; [|split]].
  - intros H. rewrite H. split; reflexivity.
  - intros H. rewrite H. reflexivity.
  - intros r H H0. rewrite H, H0. reflexivity.
  - intros r c H H0 H1. rewrite H, H0, H1. reflexivity.
Qed.

Lemma event_missing_field_raises_witness :
  (dict_get "reason" [("code", PInt 4006)] = None /\
   TrackEndEvent player_ref track_ref (PDict [("code", PInt 4006)])
   = Raise (KeyError "reason") /\
   WebsocketClosedEvent player_ref (PDict [("code", PInt 4006)])
   = Raise (KeyError "reason")) /\
  (dict_get "thresholdMs" [("code", PInt 4006)] = None /\
   TrackStuckEvent player_ref track_ref (PDict [("code", PInt 4006)])
   = Raise (KeyError "thresholdMs")) /\
  (dict_get "reason" [("reason", PStr "bye")] = Some (PStr "bye") /\
   dict_get "code" [("reason", PStr "bye")] = None /\
   WebsocketClosedEvent player_ref (PDict [("reason", PStr "bye")])
   = Raise (KeyError "code")) /\
  (dict_get "byRemote" [("reason", PStr "bye"); ("code", PInt 4006)] = None /\
   WebsocketClosedEvent player_ref (PDict [("reason", PStr "bye"); ("code", PInt 4006)])
   = Raise (KeyError "byRemote")).
Proof.
  split; [|split; [|split]].
  - split; [reflexivity|].
    exact (proj1 (event_missing_field_raises player_ref track_ref
                    [("code", PInt 4006)]) eq_refl).
  - split; [reflexivity|].
    exact (proj1 (proj2 (event_missing_field_raises player_ref track_ref
                           [("code", PInt 4006)])) eq_refl).
  - split; [reflexivity|]. split; [reflexivity|].
    exact (proj1 (proj2 (proj2 (event_missing_field_raises player_ref track_ref
                                  [("reason", PStr "bye")])))
             (PStr "bye") eq_refl eq_refl).
  - split; [reflexivity|].
    exact (proj2 (proj2 (proj2 (event_missing_field_raises player_ref track_ref
                                  [("reason", PStr "bye"); ("code", PInt 4006)])))
             (PStr "bye") (PInt 4006) eq_refl eq_refl eq_refl).
Defined.
